(** * recurrentshop/engine.py: RNNCell and RecurrentContainer

    A shallow embedding of [src/recurrentshop/engine.py].  Python objects are
    values of the inductive type [Value]; the tensor engine (Keras backend,
    numpy) builds symbolic tensors, which the embedding keeps as terms
    [VTensor op args] / [VNumpy op args] named after the primitive that
    builds them.  Exceptions are results [Raise e]; methods that assign to
    attributes of [self] run in a state-and-exception monad over the
    object.

    What lies outside [engine.py] is kept abstract or idealised: the scan
    [K.rnn], the configuration of the base class [Layer] and the
    serialization of [Sequential] are parameters; the primitives that build
    tensors ([K.variable], [np.zeros], [k.zeros], initializers) are total
    and a tensor is named by the expression that builds it, so that neither
    failures inside the engine nor the identity of freshly allocated
    variables are modelled; a type test ['numpy' in str(type(v))] holds of
    the values [VNumpy] alone, and [type(v) is tuple] of [VTuple] alone. *)

From stdpp Require Import base option list gmap strings.
From Stdlib Require Import ZArith.

Set Warnings "-register-all".

Open Scope string_scope.
Open Scope list_scope.
Open Scope nat_scope.

(** ** Python values *)

Inductive Value : Type :=
| VNone
| VBool (b : bool)
| VInt (z : Z)
| VStr (s : string)
| VTuple (items : list Value)
| VList (items : list Value)
| VNumpy (op : string) (args : list Value)    (* a numpy array *)
| VTensor (op : string) (args : list Value).  (* a tensor of the engine *)

(** [if v:] *)
Definition truthy (v : Value) : bool :=
  match v with
  | VNone => false
  | VBool b => b
  | VInt z => negb (z =? 0)%Z
  | VStr s => negb (String.eqb s "")
  | VTuple l | VList l => match l with [] => false | _ => true end
  | VNumpy _ _ | VTensor _ _ => true
  end.

(** [type(v) == int] *)
Definition is_int (v : Value) : bool :=
  match v with VInt _ => true | _ => false end.

(** [v in [-1, 'batch_size']] *)
Definition is_batch_sentinel (v : Value) : bool :=
  match v with
  | VInt z => (z =? -1)%Z
  | VStr s => String.eqb s "batch_size"
  | _ => false
  end.

(** [v == 'input_length'] *)
Definition is_length_sentinel (v : Value) : bool :=
  match v with
  | VStr s => String.eqb s "input_length"
  | _ => false
  end.

(** ** Exceptions *)

Inductive Exception : Type :=
| TypeError (msg : string)
| AssertionError (msg : string)
| AttributeError (attr : string)
| IndexError
| KeyError (key : string)
| EngineError (msg : string).

Inductive result (A : Type) : Type :=
| Ok (a : A)
| Raise (e : Exception).
Arguments Ok {A} a.
Arguments Raise {A} e.

#[global] Instance result_ret : MRet result := fun A a => Ok a.
#[global] Instance result_bind : MBind result := fun A B f m =>
  match m with
  | Ok a => f a
  | Raise e => Raise e
  end.

(** A method of an object of class [S]: it may assign to attributes of
    [self] and then return or raise; the object it leaves is part of the
    outcome in both cases. *)
Definition method (S A : Type) : Type := S → result A * S.

Definition mreturn {S A} (a : A) : method S A := fun s => (Ok a, s).
Definition mthen {S A B} (m : method S A) (f : A → method S B) : method S B :=
  fun s => match m s with
           | (Ok a, s') => f a s'
           | (Raise e, s') => (Raise e, s')
           end.
Definition mget {S} : method S S := fun s => (Ok s, s).
Definition mset {S} (f : S → S) : method S unit := fun s => (Ok tt, f s).
Definition mlift {S A} (r : result A) : method S A := fun s => (r, s).

Notation "'do' x <- m ; k" := (mthen m (fun x => k))
  (at level 10, x name, m at level 100, k at level 200).
Notation "'do' ' p <- m ; k" := (mthen m (fun p => k))
  (at level 10, p strict pattern, m at level 100, k at level 200).
Notation "'do_' m ; k" := (mthen m (fun _ => k))
  (at level 10, m at level 100, k at level 200).

(** [l[i]] for [0 <= i] *)
Definition index {A} (l : list A) (i : nat) : result A :=
  match l !! i with
  | Some a => Ok a
  | None => Raise IndexError
  end.

(** ** Engine primitives (Keras backend [K], backend module [k], numpy) *)

Definition K_variable (value : Value) : Value := VTensor "variable" [value].
Definition k_zeros (shape : list Value) : Value := VTensor "zeros" [VList shape].
Definition np_zeros (shape : list Value) : Value := VNumpy "zeros" [VList shape].
(** [K.shape(x)[i]] *)
Definition K_shape_at (x : Value) (i : Z) : Value := VTensor "shape" [x; VInt i].
(** [initializations.get(init)(shape)] *)
Definition initialize (init : string) (shape : Value) : Value :=
  VTensor ("init:" +:+ init) [shape].

(** Python slices of a list, for [0 <= a <= b]. *)
Definition slice {A} (l : list A) (a b : nat) : list A := take (b - a) (drop a l).
(** [l[a:b] = new] *)
Definition slice_assign {A} (l : list A) (a b : nat) (new : list A) : list A :=
  take a l ++ new ++ drop b l.

(** ** class weight *)

(** A regularizer object; [reg_id] is its identity. *)
Record Regularizer := { reg_id : nat; reg_name : string }.

Record weight := {
  value : Value;
  regularizer : option Regularizer;
  trainable : Value
}.

(** [weight.__init__(value)] with the defaults [init='glorot_uniform'],
    [regularizer=None], [trainable=True], [name=None]. *)
Definition weight_value (v : Value) : Value :=
  let v := match v with VInt _ => VTuple [v] | _ => v end in
  match v with
  | VTuple _ | VList _ => initialize "glorot_uniform" v
  | VNumpy _ _ => K_variable v
  | _ => v
  end.

Definition weight_of (v : Value) : weight :=
  {| value := weight_value v; regularizer := None; trainable := VBool true |}.

(** An entry of a list assigned to [cell.weights]: an instance of [weight]
    or anything else. *)
Inductive WeightEntry : Type :=
| Wrapped (w : weight)
| Unwrapped (v : Value).

(** An entry of [layer.states]: a callable or any other object. *)
Inductive StateSpec : Type :=
| SCallable (f : Value → Value)
| SValue (v : Value).

(** How [self.step] was supplied: a function stored in the instance, or a
    method of the class (then [self.step] is a bound method, and
    [getargspec] lists its [self] too). *)
Inductive StepKind := PlainFunction | BoundMethod.

(** ** class RNNCell *)

Module RNNCell.

(** The attributes of a Cell that [engine.py] reads or assigns.  [step] is
    the user's function, taking the list of its actual arguments and
    returning the pair (output, new states) or raising. *)
Record t := {
  states : list StateSpec;
  step_kind : StepKind;
  (** declared positional parameters, [self] apart *)
  step_params : list string;
  step : list Value → result (Value * list Value);
  trainable_weights : list Value;
  non_trainable_weights : list Value;
  regularizers : list Regularizer;
  constants : option Value;
  output_dim : option Value;
  (** [input_spec[0].shape], once built *)
  input_shape : option (list Value)
}.

(** [getargspec(self.step).args] *)
Definition getargspec_args (self : t) : list string :=
  match step_kind self with
  | PlainFunction => step_params self
  | BoundMethod => "self" :: step_params self
  end.

(** [self.step] applied to the unpacked [args]: a Python function without
    defaults called with more or fewer arguments than it declares raises
    TypeError. *)
Definition call_step (self : t) (args : list Value) : result (Value * list Value) :=
  if decide (length args = length (step_params self))
  then step self args
  else Raise (TypeError "step() called with a wrong number of arguments").

(** the [weights] property *)
Definition weights (self : t) : list Value :=
  trainable_weights self ++ non_trainable_weights self.

(** the argument list [_step] ends up with *)
Definition _step_args (self : t) (x : Value) (sts : list Value) : list Value :=
  let args := [x; VList sts] in
  (* hasattr(self, 'weights'): the property is always there *)
  let args := args ++ [VList (weights self)] in
  let args := match constants self with
              | Some k => args ++ [k]
              | None => args
              end in
  take (length (getargspec_args self)) args.

Definition _step (self : t) (x : Value) (sts : list Value)
  : result (Value * list Value) :=
  call_step self (_step_args self x sts).

Definition get_output_shape_for (self : t) (input_shape : list Value)
  : list Value :=
  match output_dim self with
  | Some d => take (length input_shape - 1) input_shape ++ [d]
  | None => input_shape
  end.

(** *** the [weights] setter

    [set_param] assigns to the regularizer object, which the Cell does not
    own: the setter runs over the Cell and the store [params] that gives
    every regularizer object (by identity) the tensor it is bound to. *)

Record world := {
  self : t;
  params : gmap nat Value
}.

Definition set_weight_lists (c : t) (tw ntw : list Value) (rs : list Regularizer) : t :=
  {| states := states c; step_kind := step_kind c; step_params := step_params c;
     step := step c;
     trainable_weights := tw; non_trainable_weights := ntw; regularizers := rs;
     constants := constants c; output_dim := output_dim c;
     input_shape := input_shape c |}.

(** one turn of [for w in ws] *)
Definition set_weights_entry (st : world) (e : WeightEntry) : world :=
  let c := self st in
  let w := match e with
           | Wrapped w => w
           | Unwrapped v => weight_of v
           end in
  let c := if truthy (trainable w)
           then set_weight_lists c (trainable_weights c ++ [value w])
                  (non_trainable_weights c) (regularizers c)
           else set_weight_lists c (trainable_weights c)
                  (non_trainable_weights c ++ [value w]) (regularizers c) in
  match regularizer w with
  | Some r =>
      {| self := set_weight_lists c (trainable_weights c) (non_trainable_weights c)
                   (regularizers c ++ [r]);
         params := <[reg_id r := value w]> (params st) |}
  | None => {| self := c; params := params st |}
  end.

Definition set_weights (ws : list WeightEntry) (st : world) : world :=
  let st := {| self := set_weight_lists (self st) [] [] []; params := params st |} in
  foldl set_weights_entry st ws.

End RNNCell.

(** A layer that is not an RNNCell (Dense, Activation, ...). *)
Record Layer := {
  layer_call : Value → Value;
  layer_input_shape : option (list Value);
  layer_get_output_shape_for : list Value → list Value
}.

Inductive SubUnit : Type :=
| Cell (c : RNNCell.t)
| Plain (l : Layer).

(** [layer.input_spec[0].shape] *)
Definition subunit_input_shape (u : SubUnit) : result (list Value) :=
  match u with
  | Cell c => match RNNCell.input_shape c with
              | Some s => Ok s
              | None => Raise (TypeError "'NoneType' object is not subscriptable")
              end
  | Plain l => match layer_input_shape l with
               | Some s => Ok s
               | None => Raise (TypeError "'NoneType' object is not subscriptable")
               end
  end.

Definition subunit_get_output_shape_for (u : SubUnit) (s : list Value) : list Value :=
  match u with
  | Cell c => RNNCell.get_output_shape_for c s
  | Plain l => layer_get_output_shape_for l s
  end.

(** ** keras.models.Sequential, as far as the container uses it: the list
    [layers]; [add] appends, [pop] removes the last layer and raises on an
    empty list, [output_shape] is the shape after the layers are applied in
    turn to the first layer's input shape.  The container's [self.model] is
    kept as the list of layers. *)

Definition Sequential_add (layers : list SubUnit) (layer : SubUnit) : list SubUnit :=
  layers ++ [layer].

Definition Sequential_pop (layers : list SubUnit) : result (list SubUnit) :=
  match layers with
  | [] => Raise (EngineError "There are no layers in the model.")
  | _ => Ok (removelast layers)
  end.

Definition Sequential_output_shape (layers : list SubUnit) : result (list Value) :=
  match layers with
  | [] => Raise (EngineError "The model has no layers.")
  | first :: _ =>
      s ← subunit_input_shape first;
      Ok (foldl (fun s u => subunit_get_output_shape_for u s) s layers)
  end.

(** ** class RecurrentContainer *)

Module RecurrentContainer.

(** The attributes of a container that [engine.py] reads or assigns; an
    attribute that may be missing or [None] is an option. *)
Record t := {
  return_sequences : Value;
  initial_weights : Value;
  go_backwards : Value;
  stateful : Value;
  input_length : Value;
  unroll : Value;
  supports_masking : Value;
  (** [self.model.layers] *)
  model : list SubUnit;
  batch_input_shape : option (list Value);
  (** [self.input_spec[0].shape]; [None] until the first [add] *)
  input_spec : option (list Value);
  (** the attribute [states]; absent until the first [reset_states] *)
  states : option (list Value);
  (** the attribute [updates]; absent until the first stateful [call] *)
  updates : option (list (Value * Value))
}.

(** [__init__], with [self.model = Sequential()] and what [Layer.__init__]
    leaves: no input spec, no [states], no [updates]. *)
Definition __init__
  (weights return_sequences go_backwards stateful input_length unroll : Value) : t :=
  {| return_sequences := return_sequences;
     initial_weights := weights;
     go_backwards := go_backwards;
     stateful := stateful;
     input_length := input_length;
     unroll := unroll;
     supports_masking := VBool true;
     model := [];
     batch_input_shape := None;
     input_spec := None;
     states := None;
     updates := None |}.

Definition set_model (layers : list SubUnit) (c : t) : t :=
  {| return_sequences := return_sequences c; initial_weights := initial_weights c;
     go_backwards := go_backwards c; stateful := stateful c;
     input_length := input_length c; unroll := unroll c;
     supports_masking := supports_masking c;
     model := layers;
     batch_input_shape := batch_input_shape c; input_spec := input_spec c;
     states := states c; updates := updates c |}.

Definition set_input_shape (shape : list Value) (c : t) : t :=
  {| return_sequences := return_sequences c; initial_weights := initial_weights c;
     go_backwards := go_backwards c; stateful := stateful c;
     input_length := input_length c; unroll := unroll c;
     supports_masking := supports_masking c;
     model := model c;
     batch_input_shape := Some shape; input_spec := Some shape;
     states := states c; updates := updates c |}.

Definition set_states (sts : list Value) (c : t) : t :=
  {| return_sequences := return_sequences c; initial_weights := initial_weights c;
     go_backwards := go_backwards c; stateful := stateful c;
     input_length := input_length c; unroll := unroll c;
     supports_masking := supports_masking c;
     model := model c;
     batch_input_shape := batch_input_shape c; input_spec := input_spec c;
     states := Some sts; updates := updates c |}.

Definition set_updates (ups : list (Value * Value)) (c : t) : t :=
  {| return_sequences := return_sequences c; initial_weights := initial_weights c;
     go_backwards := go_backwards c; stateful := stateful c;
     input_length := input_length c; unroll := unroll c;
     supports_masking := supports_masking c;
     model := model c;
     batch_input_shape := batch_input_shape c; input_spec := input_spec c;
     states := states c; updates := Some ups |}.

(** [self.input_spec[0].shape] *)
Definition get_input_shape (c : t) : result (list Value) :=
  match input_spec c with
  | Some s => Ok s
  | None => Raise (TypeError "'NoneType' object is not subscriptable")
  end.

(** [self.states] *)
Definition get_states (c : t) : result (list Value) :=
  match states c with
  | Some s => Ok s
  | None => Raise (AttributeError "states")
  end.

(** [self.updates] *)
Definition get_updates (c : t) : result (list (Value * Value)) :=
  match updates c with
  | Some u => Ok u
  | None => Raise (AttributeError "updates")
  end.

(** *** reset_states *)

Definition static_shapes_msg : string :=
  "Stateful RNNs require states with static shapes".

(** [for i in range(len(state))]: the sentinels of a shape, left to right *)
Fixpoint resolve_static (state : list Value) (batch_size input_length : Value)
  : result (list Value) :=
  match state with
  | [] => Ok []
  | d :: rest =>
      d' ← (if is_batch_sentinel d then
              if is_int batch_size then Ok batch_size
              else Raise (AssertionError static_shapes_msg)
            else if is_length_sentinel d then
              if is_int input_length then Ok input_length
              else Raise (AssertionError static_shapes_msg)
            else Ok d);
      rest' ← resolve_static rest batch_size input_length;
      Ok (d' :: rest')
  end.

(** the body of [for state in layer.states]: the variable built for one
    state *)
Definition static_state (state : StateSpec) (batch_size input_length : Value)
  : result Value :=
  match state with
  | SCallable _ => Raise (AssertionError static_shapes_msg)
  | SValue v =>
      match v with
      | VNumpy _ _ => Ok (K_variable v)
      | VTuple dims | VList dims =>
          shape ← resolve_static dims batch_size input_length;
          Ok (K_variable (np_zeros shape))
      | _ => Raise (AssertionError static_shapes_msg)
      end
  end.

Fixpoint reset_cell (specs : list StateSpec) (batch_size input_length : Value)
  (sts : list Value) : result (list Value) :=
  match specs with
  | [] => Ok sts
  | state :: rest =>
      v ← static_state state batch_size input_length;
      reset_cell rest batch_size input_length (sts ++ [v])
  end.

Fixpoint reset_layers (layers : list SubUnit) (batch_size input_length : Value)
  (sts : list Value) : result (list Value) :=
  match layers with
  | [] => Ok sts
  | Cell c :: rest =>
      sts' ← reset_cell (RNNCell.states c) batch_size input_length sts;
      reset_layers rest batch_size input_length sts'
  | Plain _ :: rest => reset_layers rest batch_size input_length sts
  end.

Definition reset_states : method t unit :=
  do self <- mget;
  do shape <- mlift (get_input_shape self);
  do batch_size <- mlift (index shape 0);
  do input_length <- mlift (index shape 1);
  do sts <- mlift (reset_layers (model self) batch_size input_length []);
  mset (set_states sts).

(** *** add, pop *)

Definition add (layer : SubUnit) : method t unit :=
  do_ mset (fun self => set_model (Sequential_add (model self) layer) self);
  do self <- mget;
  do_ (if decide (length (model self) = 1) then
         do shape <- mlift (subunit_input_shape layer);
         do b <- mlift (index shape 0);
         mset (set_input_shape ([b; input_length self] ++ drop 1 shape))
       else mreturn tt);
  if truthy (stateful self) then reset_states else mreturn tt.

Definition pop : method t unit :=
  do self <- mget;
  do layers <- mlift (Sequential_pop (model self));
  do_ mset (set_model layers);
  if truthy (stateful self) then reset_states else mreturn tt.

(** *** output_shape, get_output_shape_for *)

Definition output_shape (self : t) : result (list Value) :=
  ishape ← get_input_shape self;
  input_length ← index ishape 1;
  shape ← Sequential_output_shape (model self);
  if truthy (return_sequences self) then
    b ← index shape 0;
    Ok ([b; input_length] ++ drop 1 shape)
  else Ok shape.

Definition get_output_shape_for (self : t) (input_shape : list Value)
  : result (list Value) :=
  output_shape self.

(** *** step *)

(** one turn of [for layer in self.model.layers], on the local variables
    [x], [states] and [state_index] *)
Definition step_layer (layer : SubUnit) (acc : Value * list Value * nat)
  : result (Value * list Value * nat) :=
  let '(x, sts, state_index) := acc in
  match layer with
  | Cell c =>
      let k := length (RNNCell.states c) in
      '(x', new_states) ← RNNCell._step c x (slice sts state_index (state_index + k));
      Ok (x', slice_assign sts state_index (state_index + k) new_states,
          state_index + k)
  | Plain l => Ok (layer_call l x, sts, state_index)
  end.

Fixpoint step_loop (layers : list SubUnit) (acc : Value * list Value * nat)
  : result (Value * list Value * nat) :=
  match layers with
  | [] => Ok acc
  | layer :: rest => acc' ← step_layer layer acc; step_loop rest acc'
  end.

Definition step (self : t) (x : Value) (sts : list Value)
  : result (Value * list Value) :=
  '(x', sts', _) ← step_loop (model self) (x, sts, 0);
  Ok (x', sts').

(** *** get_initial_states *)

Definition _get_state_from_info (info : StateSpec)
  (input batch_size input_length : Value) : Value :=
  match info with
  | SCallable f => f input
  | SValue v =>
      match v with
      | VTuple dims =>
          k_zeros (map (fun d => if is_batch_sentinel d then batch_size
                                 else if is_length_sentinel d then input_length
                                 else d) dims)
      | VNumpy _ _ => K_variable v
      | _ => v
      end
  end.

(** [x[:, 0, ...]] *)
Definition _get_first_timestep (x : Value) : Value :=
  VTensor "getitem" [x; VTuple [VStr ":"; VInt 0]].

(** [for state in layer.states] *)
Definition layer_initial_states (c : RNNCell.t)
  (input batch_size input_length : Value) : list Value :=
  foldl (fun acc state =>
           let st := _get_state_from_info state input batch_size input_length in
           let st := match st with VList l => l | _ => [st] end in
           acc ++ st)
        [] (RNNCell.states c).

Fixpoint initial_states_loop (layers : list SubUnit)
  (input batch_size input_length : Value) (initial_states : list Value)
  : result (list Value) :=
  match layers with
  | [] => Ok initial_states
  | Cell c :: rest =>
      let lis := layer_initial_states c input batch_size input_length in
      let initial_states := initial_states ++ lis in
      '(input', _) ← RNNCell._step c input lis;
      initial_states_loop rest input' batch_size input_length initial_states
  | Plain l :: rest =>
      initial_states_loop rest (layer_call l input) batch_size input_length
        initial_states
  end.

Definition resolved_sizes (self : t) (x : Value) : result (Value * Value) :=
  shape ← get_input_shape self;
  batch_size ← index shape 0;
  input_length ← index shape 1;
  let input_length := match input_length with
                      | VNone => K_shape_at x 1
                      | _ => input_length
                      end in
  let batch_size := match batch_size with
                    | VNone => K_shape_at x 0
                    | _ => batch_size
                    end in
  Ok (batch_size, input_length).

Definition get_initial_states (self : t) (x : Value) : result (list Value) :=
  '(batch_size, input_length) ← resolved_sizes self x;
  let input := _get_first_timestep x in
  initial_states_loop (model self) input batch_size input_length [].

(** *** call *)

Section Call.

(** [K.rnn(step_function, inputs, initial_states, go_backwards, mask, unroll,
    input_length)], the scan primitive of the engine; it returns
    [(last_output, outputs, new_states)]. *)
Variable K_rnn :
  (Value → list Value → result (Value * list Value)) →
  Value → list Value → Value → Value → Value → Value →
  result (Value * Value * list Value).

(** [for i in range(len(states)): self.updates.append((self.states[i], states[i]))],
    from index [i] on *)
Fixpoint record_updates (sts : list Value) (i : nat) : method t unit :=
  match sts with
  | [] => mreturn tt
  | s :: rest =>
      do self <- mget;
      do ups <- mlift (get_updates self);
      do own <- mlift (get_states self);
      do var <- mlift (index own i);
      do_ mset (set_updates (ups ++ [(var, s)]));
      record_updates rest (S i)
  end.

Definition call (x mask : Value) : method t Value :=
  do self <- mget;
  do input_shape <- mlift (get_input_shape self);
  do initial_states <- mlift (if truthy (stateful self) then get_states self
                              else get_initial_states self x);
  do len <- mlift (index input_shape 1);
  do ' (last_output, outputs, sts) <-
     mlift (K_rnn (step self) x initial_states (go_backwards self) mask
              (unroll self) len);
  do_ (if truthy (stateful self) then
         do_ mset (set_updates []);
         record_updates sts 0
       else mreturn tt);
  mreturn (if truthy (return_sequences self) then outputs else last_output).

End Call.

(** *** get_config, from_config *)

(** [dict(items)]: of two items with one key the later one stays *)
Definition py_dict (items : list (string * Value)) : gmap string Value :=
  list_to_map (reverse items).

Definition attribs : list string :=
  ["return_sequences"; "go_backwards"; "stateful"; "input_length"; "unroll"].

Definition getattr (self : t) (x : string) : Value :=
  if String.eqb x "return_sequences" then return_sequences self
  else if String.eqb x "go_backwards" then go_backwards self
  else if String.eqb x "stateful" then stateful self
  else if String.eqb x "input_length" then input_length self
  else if String.eqb x "unroll" then unroll self
  else VNone.

(** the parameters of [__init__] *)
Definition init_params : list string :=
  ["weights"; "return_sequences"; "go_backwards"; "stateful"; "input_length";
   "unroll"].

(** [cls( **config )]: [__init__] takes no other keyword *)
Definition construct (config : gmap string Value) : result t :=
  match filter (λ kv : string * Value, kv.1 ∉ init_params) (map_to_list config) with
  | (k, _) :: _ =>
      Raise (TypeError ("__init__() got an unexpected keyword argument '" +:+ k +:+ "'"))
  | [] =>
      Ok (__init__ (default VNone (config !! "weights"))
            (default (VBool false) (config !! "return_sequences"))
            (default (VBool false) (config !! "go_backwards"))
            (default (VBool false) (config !! "stateful"))
            (default VNone (config !! "input_length"))
            (default (VBool false) (config !! "unroll")))
  end.

Section Config.

(** [Layer.get_config] of the base class, and the serialization of
    [keras.models.Sequential] *)
Variable Layer_get_config : t → gmap string Value.
Variable Sequential_get_config : list SubUnit → Value.
Variable Sequential_from_config : Value → result (list SubUnit).

Definition get_config (self : t) : gmap string Value :=
  let config : gmap string Value :=
    py_dict (map (λ x, (x, getattr self x)) attribs) in
  let config := <["model" := Sequential_get_config (model self)]> config in
  let base_config := Layer_get_config self in
  py_dict (map_to_list base_config ++ map_to_list config).

Definition from_config (config : gmap string Value) : result t :=
  model_config ← match config !! "model" with
                 | Some m => Ok m
                 | None => Raise (KeyError "model")
                 end;
  let config := delete "model" config in
  rc ← construct config;
  layers ← Sequential_from_config model_config;
  Ok (set_model layers rc).

End Config.

End RecurrentContainer.

(** ** Notions used by the statements *)

(** A [weights] entry as the loop of the setter sees it, after
    [if not isinstance(w, weight): w = weight(w)]. *)
Definition as_weight (e : WeightEntry) : weight :=
  match e with
  | Wrapped w => w
  | Unwrapped v => weight_of v
  end.

(** The effect of the [set_param] calls of the weights in [ws], in order, on
    the store of regularizer bindings. *)
Definition bind_regularizers (ws : list weight) (h : gmap nat Value) : gmap nat Value :=
  foldl (λ h w, match regularizer w with
                | Some r => <[reg_id r := value w]> h
                | None => h
                end) h ws.

(** The binding a list of weights leaves for the regularizer [k]: that of
    the last weight carrying it. *)
Fixpoint last_binding (ws : list weight) (k : nat) : option Value :=
  match ws with
  | [] => None
  | w :: rest =>
      match last_binding rest k with
      | Some v => Some v
      | None => match regularizer w with
                | Some r => if decide (reg_id r = k) then Some (value w) else None
                | None => None
                end
      end
  end.

(** What is available to [_step] for a call of [self.step]: input, states,
    the parameter list, and the constants of a Cell that has them. *)
Definition available_args (c : RNNCell.t) (x : Value) (sts : list Value) : list Value :=
  [x; VList sts; VList (RNNCell.weights c)] ++
  match RNNCell.constants c with Some k => [k] | None => [] end.

(** The number of states the Cells of a pipeline declare. *)
Fixpoint declared_states (layers : list SubUnit) : nat :=
  match layers with
  | [] => 0
  | Cell c :: rest => length (RNNCell.states c) + declared_states rest
  | Plain _ :: rest => declared_states rest
  end.

(** All state specifications of a pipeline, in the order of the state
    vector. *)
Fixpoint declared_specs (layers : list SubUnit) : list StateSpec :=
  match layers with
  | [] => []
  | Cell c :: rest => RNNCell.states c ++ declared_specs rest
  | Plain _ :: rest => declared_specs rest
  end.

(** Every Cell invoked while the loop of [step] runs over [layers] from the
    local variables [acc] returns, and returns as many new states as it
    declares. *)
Fixpoint returns_declared (layers : list SubUnit) (acc : Value * list Value * nat)
  : Prop :=
  match layers with
  | [] => True
  | Cell c :: rest =>
      let k := length (RNNCell.states c) in
      ∃ y new,
        RNNCell._step c acc.1.1 (slice acc.1.2 acc.2 (acc.2 + k)) = Ok (y, new)
        ∧ length new = k
        ∧ returns_declared rest (y, slice_assign acc.1.2 acc.2 (acc.2 + k) new, acc.2 + k)
  | Plain l :: rest => returns_declared rest (layer_call l acc.1.1, acc.1.2, acc.2)
  end.

(** ** Sample cells and layers *)

Definition mk_cell (sts : list StateSpec) (kind : StepKind) (ps : list string)
  (body : list Value → result (Value * list Value)) (consts : option Value)
  : RNNCell.t :=
  {| RNNCell.states := sts; RNNCell.step_kind := kind; RNNCell.step_params := ps;
     RNNCell.step := body;
     RNNCell.trainable_weights := []; RNNCell.non_trainable_weights := [];
     RNNCell.regularizers := [];
     RNNCell.constants := consts; RNNCell.output_dim := None;
     RNNCell.input_shape := Some [VNone; VInt 1] |}.

(** [new_state = input + state; output = new_state] *)
Definition sum_body (args : list Value) : result (Value * list Value) :=
  match args with
  | x :: VList [h] :: _ => let h' := VTensor "add" [x; h] in Ok (h', [h'])
  | x :: _ => Ok (x, [x])
  | [] => Raise (TypeError "step() takes at least 1 argument")
  end.

(** a step that returns two new states whatever it declares *)
Definition growing_body (args : list Value) : result (Value * list Value) :=
  match args with
  | x :: _ => Ok (x, [VTensor "n0" []; VTensor "n1" []])
  | [] => Raise (TypeError "step() takes at least 1 argument")
  end.

Definition x0 : Value := VTensor "x" [].
Definition h0 : Value := VTensor "h" [].
Definition h1 : Value := VTensor "g" [].

(** [self.step = step] with [def step(x, states)] *)
Definition two_arg_function_cell : RNNCell.t :=
  mk_cell [SValue (VTuple [VInt (-1); VInt 1])] PlainFunction ["x"; "states"] sum_body None.

(** [def step(self, x, states)] in the class *)
Definition two_arg_method_cell : RNNCell.t :=
  mk_cell [SValue (VTuple [VInt (-1); VInt 1])] BoundMethod ["x"; "states"] sum_body None.

(** [self.step = step] with [def step(x, states, weights, constants)], on a
    Cell without the attribute [constants] *)
Definition four_arg_function_cell : RNNCell.t :=
  mk_cell [SValue (VTuple [VInt (-1); VInt 1])] PlainFunction
    ["x"; "states"; "weights"; "constants"] sum_body None.

(** declares one state, returns two *)
Definition growing_cell : RNNCell.t :=
  mk_cell [SValue (VTuple [VInt (-1); VInt 1])] PlainFunction ["x"; "states"] growing_body None.

(** its state is given as a literal array *)
Definition literal_cell : RNNCell.t :=
  mk_cell [SValue (VNumpy "array" [VList [VInt 1]])] PlainFunction ["x"; "states"]
    sum_body None.

(** its state shape takes both sizes from the input *)
Definition sized_cell : RNNCell.t :=
  mk_cell [SValue (VTuple [VStr "batch_size"; VStr "input_length"; VInt 4])]
    PlainFunction ["x"; "states"] sum_body None.

(** its state is computed from the first input *)
Definition callable_cell : RNNCell.t :=
  mk_cell [SCallable (λ x, VTensor "zeros_like" [x])] PlainFunction ["x"; "states"]
    sum_body None.

Definition identity_layer : Layer :=
  {| layer_call := λ x, x;
     layer_input_shape := Some [VNone; VInt 1];
     layer_get_output_shape_for := λ s, s |}.

Definition l2_W : Regularizer := {| reg_id := 1; reg_name := "l2" |}.

(** [[weight(W, regularizer=l2_W, trainable=False), U]] *)
Definition sample_weights : list WeightEntry :=
  [Wrapped {| value := VTensor "W" []; regularizer := Some l2_W;
              trainable := VBool false |};
   Unwrapped (VTensor "U" [])].

Definition sample_world : RNNCell.world :=
  {| RNNCell.self := two_arg_function_cell; RNNCell.params := ∅ |}.

(** A container holding [layers], as [add] leaves it when the first layer
    has the input shape [(None, 1)] and [input_length] is [None]. *)
Definition container_of (stateful : bool) (layers : list SubUnit) : RecurrentContainer.t :=
  RecurrentContainer.set_model layers
    (RecurrentContainer.set_input_shape [VNone; VNone; VInt 1]
       (RecurrentContainer.__init__ VNone (VBool false) (VBool false)
          (VBool stateful) VNone (VBool false))).

(** [if type(state) != list: state = [state]] *)
Definition as_list (v : Value) : list Value :=
  match v with VList l => l | _ => [v] end.

(** A size of the input spec as [get_initial_states] resolves it: a size
    that is [None] becomes the run-time size [K.shape(x)[axis]]. *)
Definition resolved_size (size x : Value) (axis : Z) : Value :=
  match size with VNone => K_shape_at x axis | _ => size end.

(** A shape has a sentinel that the sizes [batch_size], [input_length] do
    not resolve to an integer. *)
Definition unresolvable (dims : list Value) (batch_size input_length : Value) : Prop :=
  ∃ d, d ∈ dims
       ∧ ((is_batch_sentinel d = true ∧ is_int batch_size = false)
          ∨ (is_length_sentinel d = true ∧ is_int input_length = false)).

(** A state specification that is not statically shaped: a callable, a raw
    tensor or another object that is neither a shape nor an array, or a
    shape with an unresolvable sentinel. *)
Definition not_static (spec : StateSpec) (batch_size input_length : Value) : Prop :=
  match spec with
  | SCallable _ => True
  | SValue v =>
      match v with
      | VNumpy _ _ => False
      | VTuple dims | VList dims => unresolvable dims batch_size input_length
      | _ => True
      end
  end.

(** The buffer [reset_states] builds for a state specification: a variable
    holding the literal array, or zeros of the resolved shape. *)
Definition rebuilt_buffer (batch_size input_length : Value) (spec : StateSpec)
  (buf : Value) : Prop :=
  match spec with
  | SCallable _ => False
  | SValue v =>
      match v with
      | VNumpy _ _ => buf = K_variable v
      | VTuple dims | VList dims =>
          ∃ shape, RecurrentContainer.resolve_static dims batch_size input_length = Ok shape
                   ∧ length shape = length dims
                   ∧ buf = K_variable (np_zeros shape)
      | _ => False
      end
  end.

(** a variable initialised with zeros *)
Definition is_zero_buffer (buf : Value) : bool :=
  match buf with
  | VTensor "variable" [VNumpy "zeros" _] => true
  | _ => false
  end.

(** A persistent container with one Cell whose state is a literal array,
    before [add(identity_layer)], after it, and after the [pop()] that
    follows. *)
Definition literal_buffers : list Value :=
  [K_variable (VNumpy "array" [VList [VInt 1]])].
Definition literal_container : RecurrentContainer.t :=
  container_of true [Cell literal_cell].
Definition literal_container_added : RecurrentContainer.t :=
  RecurrentContainer.set_states literal_buffers
    (container_of true [Cell literal_cell; Plain identity_layer]).
Definition literal_container_popped : RecurrentContainer.t :=
  RecurrentContainer.set_states literal_buffers literal_container.

(** A scan that runs the step function once, on the first timestep. *)
Definition one_step_rnn (step_function : Value → list Value → result (Value * list Value))
  (inputs : Value) (initial_states : list Value)
  (go_backwards mask unroll input_length : Value)
  : result (Value * Value * list Value) :=
  '(output, new_states) ← step_function (VTensor "getitem" [inputs; VInt 0]) initial_states;
  Ok (output, VTensor "stack" [output], new_states).

(** What [Layer.get_config] of Keras returns for a fresh container. *)
Definition keras_base_config (self : RecurrentContainer.t) : gmap string Value :=
  {[ "name" := VStr "recurrentcontainer_1"; "trainable" := VBool true ]}.

(** A base class whose configuration is empty. *)
Definition empty_base_config (self : RecurrentContainer.t) : gmap string Value := ∅.

(** A serialization of the layer list that keeps the number of layers and
    rebuilds identity layers. *)
Definition count_layers (layers : list SubUnit) : Value :=
  VList (map (λ _, VStr "layer") layers).
Definition rebuild_layers (config : Value) : result (list SubUnit) :=
  match config with
  | VList items => Ok (map (λ _, Plain identity_layer) items)
  | _ => Raise (TypeError "not a list")
  end.

(** The configuration of the container itself, as [get_config] builds it
    before the base configuration is merged in: the five flags and the
    serialized layer list. *)
Definition own_config (Sequential_get_config : list SubUnit → Value)
  (self : RecurrentContainer.t) : gmap string Value :=
  <["model" := Sequential_get_config (RecurrentContainer.model self)]>
    (RecurrentContainer.py_dict
       (map (λ x, (x, RecurrentContainer.getattr self x)) RecurrentContainer.attribs)).

(** [def step(self, x, states, weights)] in the class, the usual way to
    write a Cell *)
Definition three_arg_method_cell : RNNCell.t :=
  mk_cell [SValue (VTuple [VInt (-1); VInt 1])] BoundMethod
    ["x"; "states"; "weights"] sum_body None.

(** A Cell holding a trainable tensor [U] and a non-trainable tensor [W]
    with a regularizer. *)
Definition weighted_cell : RNNCell.t :=
  RNNCell.set_weight_lists two_arg_function_cell
    [VTensor "U" []] [VTensor "W" []] [l2_W].

(** [reg = l2(); [weight(W, regularizer=reg), weight(U, regularizer=reg)]] *)
Definition shared_regularizer_weights : list WeightEntry :=
  [Wrapped {| value := VTensor "W" []; regularizer := Some l2_W;
              trainable := VBool true |};
   Wrapped {| value := VTensor "U" []; regularizer := Some l2_W;
              trainable := VBool true |}].

(** A state specification that resolves to one state in non-persistent
    mode: not a Python list (which is spliced item by item into the initial
    states), and not a callable that returns a list. *)
Definition resolves_to_one (spec : StateSpec) : Prop :=
  match spec with
  | SCallable f => ∀ input l, f input ≠ VList l
  | SValue (VList _) => False
  | SValue _ => True
  end.

(** [dims] with the sentinels replaced, as [_get_state_from_info] does it. *)
Definition substituted (dims : list Value) (batch_size input_length : Value) : list Value :=
  map (λ d, if is_batch_sentinel d then batch_size
            else if is_length_sentinel d then input_length
            else d) dims.

(** A shape given as a Python list. *)
Definition list_shape_cell : RNNCell.t :=
  mk_cell [SValue (VList [VInt (-1); VInt 4])] PlainFunction ["x"; "states"]
    sum_body None.

(** A scan that returns one final state more than it was given initial
    states. *)
Definition overfull_rnn (step_function : Value → list Value → result (Value * list Value))
  (inputs : Value) (initial_states : list Value)
  (go_backwards mask unroll input_length : Value)
  : result (Value * Value * list Value) :=
  Ok (VTensor "last" [], VTensor "outputs" [], initial_states ++ [VTensor "extra" []]).

(** * Properties *)

(** ** RNNCell._step *)

Lemma available_args_length c x sts :
  length (available_args c x sts) =
  match RNNCell.constants c with Some _ => 4 | None => 3 end.
Proof. unfold available_args. destruct (RNNCell.constants c); reflexivity. Qed.

Lemma _step_args_take c x sts :
  RNNCell._step_args c x sts =
  take (length (RNNCell.getargspec_args c)) (available_args c x sts).
Proof.
  unfold RNNCell._step_args, available_args.
  destruct (RNNCell.constants c); reflexivity.
Qed.

(** A step stored in the instance and called with as many arguments as it
    declares reaches the user's function. *)
Lemma call_step_exact c args :
  length args = length (RNNCell.step_params c) →
  RNNCell.call_step c args = RNNCell.step c args.
Proof. intros H. unfold RNNCell.call_step. by rewrite decide_True. Qed.

(** C4, as amended: for a Cell whose step is a plain function stored in the
    instance and declares n of the arguments input, state, parameters,
    constants (1 <= n <= 4), [_step] passes the first n of the arguments it
    has available: input, state, the parameter list, and the constants only
    when the Cell has the attribute.  That is exactly n arguments, in this
    order, when n <= 3 or the Cell has constants, and then the user's step
    is called with them; a step declaring (input, state) gets exactly those
    two. *)
Theorem C4_step_passes_declared_prefix (c : RNNCell.t) (x : Value) (sts : list Value) :
  RNNCell.step_kind c = PlainFunction →
  1 ≤ length (RNNCell.step_params c) ≤ 4 →
  RNNCell._step_args c x sts =
    take (length (RNNCell.step_params c)) (available_args c x sts)
  ∧ (length (RNNCell.step_params c) ≤ 3 ∨ is_Some (RNNCell.constants c) →
       length (RNNCell._step_args c x sts) = length (RNNCell.step_params c)
       ∧ RNNCell._step c x sts = RNNCell.step c (RNNCell._step_args c x sts))
  ∧ (length (RNNCell.step_params c) = 2 →
       RNNCell._step c x sts = RNNCell.step c [x; VList sts]).
Proof.
  intros Hkind Hn.
  assert (Hargs : RNNCell._step_args c x sts =
                  take (length (RNNCell.step_params c)) (available_args c x sts)).
  { rewrite _step_args_take. unfold RNNCell.getargspec_args. by rewrite Hkind. }
  assert (Hlen : length (RNNCell.step_params c) ≤ 3 ∨ is_Some (RNNCell.constants c) →
                 length (RNNCell._step_args c x sts) = length (RNNCell.step_params c)).
  { intros Hav. rewrite Hargs, length_take, available_args_length.
    destruct Hav as [?|[k Hk]]; [destruct (RNNCell.constants c); lia|].
    rewrite Hk. lia. }
  split; [exact Hargs|]. split.
  - intros Hav. split; [by apply Hlen|].
    unfold RNNCell._step. apply call_step_exact. by apply Hlen.
  - intros H2. unfold RNNCell._step.
    rewrite call_step_exact by (apply Hlen; lia).
    rewrite Hargs, H2. reflexivity.
Qed.

Lemma C4_step_passes_declared_prefix_witness :
  RNNCell._step two_arg_function_cell x0 [h0]
  = RNNCell.step two_arg_function_cell [x0; VList [h0]].
Proof.
  apply (C4_step_passes_declared_prefix two_arg_function_cell x0 [h0]);
    [reflexivity | simpl; lia | reflexivity].
Defined.

(** C4 fails as stated, at two Cells.  A step function declaring all four
    arguments, on a Cell without the attribute [constants], is passed three
    arguments.  A step defined as a method [step(self, x, states)] is passed
    three arguments as well, the parameter list among them, because
    [getargspec] counts [self]; the call raises TypeError in both cases. *)
Lemma C4_counterexample :
  (length (RNNCell.step_params four_arg_function_cell) = 4
   ∧ RNNCell._step_args four_arg_function_cell x0 [h0] = [x0; VList [h0]; VList []]
   ∧ RNNCell._step four_arg_function_cell x0 [h0]
     = Raise (TypeError "step() called with a wrong number of arguments"))
  ∧ (RNNCell.step_params two_arg_method_cell = ["x"; "states"]
     ∧ RNNCell._step_args two_arg_method_cell x0 [h0] = [x0; VList [h0]; VList []]
     ∧ RNNCell._step two_arg_method_cell x0 [h0]
       = Raise (TypeError "step() called with a wrong number of arguments")).
Proof. repeat split. Qed.

(** ** The weights setter *)

Section WeightsSetter.

Import RNNCell.

Lemma set_weights_entry_lists st e :
  let w := as_weight e in
  trainable_weights (self (set_weights_entry st e))
    = trainable_weights (self st) ++ (if truthy (trainable w) then [value w] else [])
  ∧ non_trainable_weights (self (set_weights_entry st e))
    = non_trainable_weights (self st) ++ (if truthy (trainable w) then [] else [value w])
  ∧ regularizers (self (set_weights_entry st e))
    = regularizers (self st) ++ option_list (regularizer w)
  ∧ params (set_weights_entry st e) = bind_regularizers [w] (params st).
Proof.
  unfold set_weights_entry, bind_regularizers. destruct e as [w|v]; simpl.
  - destruct (truthy (trainable w)), (regularizer w); simpl;
      rewrite ?app_nil_r; done.
  - rewrite ?app_nil_r; done.
Qed.

Lemma bind_regularizers_app ws1 ws2 h :
  bind_regularizers (ws1 ++ ws2) h = bind_regularizers ws2 (bind_regularizers ws1 h).
Proof. unfold bind_regularizers. apply foldl_app. Qed.

(** The loop of the setter, from any state of the three lists. *)
Lemma set_weights_loop ws : ∀ st,
  let st' := foldl set_weights_entry st ws in
  let ws' := as_weight <$> ws in
  trainable_weights (self st')
    = trainable_weights (self st)
      ++ (value <$> filter (λ w, truthy (trainable w) = true) ws')
  ∧ non_trainable_weights (self st')
    = non_trainable_weights (self st)
      ++ (value <$> filter (λ w, truthy (trainable w) = false) ws')
  ∧ regularizers (self st') = regularizers (self st) ++ omap regularizer ws'
  ∧ params st' = bind_regularizers ws' (params st).
Proof.
  induction ws as [|e ws IH]; intros st; simpl.
  - rewrite !app_nil_r. done.
  - destruct (IH (set_weights_entry st e)) as (Ht & Hn & Hr & Hp).
    destruct (set_weights_entry_lists st e) as (Ht1 & Hn1 & Hr1 & Hp1).
    simpl in *. rewrite Ht, Hn, Hr, Hp, Ht1, Hn1, Hr1, Hp1.
    rewrite !filter_cons. clear.
    destruct (truthy (trainable (as_weight e))) eqn:E; simpl;
      destruct (regularizer (as_weight e)); simpl;
      rewrite <- ?app_assoc, ?app_nil_r; simpl;
      repeat split; try done;
      repeat (case_decide; try done; simpl).
Qed.

(** The fields of a Cell the setter does not assign. *)
Lemma set_weights_other_fields ws : ∀ st,
  let c := self st in let c' := self (foldl set_weights_entry st ws) in
  states c' = states c ∧ step_kind c' = step_kind c
  ∧ step_params c' = step_params c ∧ step c' = step c
  ∧ constants c' = constants c ∧ output_dim c' = output_dim c
  ∧ input_shape c' = input_shape c.
Proof.
  induction ws as [|e ws IH]; intros st; simpl; [done|].
  destruct (IH (set_weights_entry st e)) as (H1 & H2 & H3 & H4 & H5 & H6 & H7).
  simpl in *. rewrite H1, H2, H3, H4, H5, H6, H7. clear.
  unfold set_weights_entry.
  destruct (truthy _), (regularizer _); done.
Qed.

Lemma cell_eq (c c' : t) :
  states c' = states c → step_kind c' = step_kind c →
  step_params c' = step_params c → step c' = step c →
  trainable_weights c' = trainable_weights c →
  non_trainable_weights c' = non_trainable_weights c →
  regularizers c' = regularizers c →
  constants c' = constants c → output_dim c' = output_dim c →
  input_shape c' = input_shape c → c' = c.
Proof. destruct c, c'; simpl; intros; by subst. Qed.

Lemma bind_regularizers_lookup ws : ∀ h k,
  bind_regularizers ws h !! k =
  match last_binding ws k with Some v => Some v | None => h !! k end.
Proof.
  induction ws as [|w ws IH]; intros h k; [done|].
  change (bind_regularizers (w :: ws) h)
    with (bind_regularizers ws (bind_regularizers [w] h)).
  rewrite IH. simpl. destruct (last_binding ws k); [done|].
  unfold bind_regularizers; simpl. destruct (regularizer w) as [r|]; [|done].
  rewrite lookup_insert. by destruct (decide (reg_id r = k)).
Qed.

Lemma bind_regularizers_twice ws h :
  bind_regularizers ws (bind_regularizers ws h) = bind_regularizers ws h.
Proof.
  apply map_eq. intros k. rewrite !bind_regularizers_lookup.
  by destruct (last_binding ws k).
Qed.

End WeightsSetter.

Lemma last_binding_source ws k v :
  last_binding ws k = Some v →
  ∃ w r, w ∈ ws ∧ regularizer w = Some r ∧ reg_id r = k ∧ value w = v.
Proof.
  induction ws as [|w0 ws IH]; simpl; [done|].
  destruct (last_binding ws k) as [v'|] eqn:E.
  - intros [= ->]. destruct IH as (w & r & ? & ? & ? & ?); [done|].
    exists w, r. set_solver.
  - destruct (regularizer w0) as [r|] eqn:Er; [|done].
    case_decide; [|done]. intros [= <-]. exists w0, r. set_solver.
Qed.

Lemma last_binding_is_Some ws w r :
  w ∈ ws → regularizer w = Some r → is_Some (last_binding ws (reg_id r)).
Proof.
  induction ws as [|w0 ws IH]; simpl; [set_solver|].
  intros Hin Hr. destruct (last_binding ws (reg_id r)) eqn:E; [done|].
  apply elem_of_cons in Hin as [->|Hin].
  - rewrite Hr. by rewrite decide_True.
  - destruct (IH Hin Hr) as [? ?]. congruence.
Qed.

Lemma set_weights_spec ws st :
  let st' := RNNCell.set_weights ws st in
  let ws' := as_weight <$> ws in
  RNNCell.trainable_weights (RNNCell.self st')
    = value <$> filter (λ w, truthy (trainable w) = true) ws'
  ∧ RNNCell.non_trainable_weights (RNNCell.self st')
    = value <$> filter (λ w, truthy (trainable w) = false) ws'
  ∧ RNNCell.regularizers (RNNCell.self st') = omap regularizer ws'
  ∧ RNNCell.params st' = bind_regularizers ws' (RNNCell.params st).
Proof.
  unfold RNNCell.set_weights.
  exact (set_weights_loop ws
           {| RNNCell.self := RNNCell.set_weight_lists (RNNCell.self st) [] [] [];
              RNNCell.params := RNNCell.params st |}).
Qed.

Lemma set_weights_replaces ws st tw ntw rs :
  RNNCell.set_weights ws
    {| RNNCell.self := RNNCell.set_weight_lists (RNNCell.self st) tw ntw rs;
       RNNCell.params := RNNCell.params st |}
  = RNNCell.set_weights ws st.
Proof. reflexivity. Qed.

Lemma world_eq (a b : RNNCell.world) :
  RNNCell.self a = RNNCell.self b → RNNCell.params a = RNNCell.params b → a = b.
Proof. destruct a, b; simpl; intros; by subst. Qed.

Lemma set_weights_idempotent ws st :
  RNNCell.set_weights ws (RNNCell.set_weights ws st) = RNNCell.set_weights ws st.
Proof.
  destruct (set_weights_spec ws (RNNCell.set_weights ws st)) as (Ht & Hn & Hr & Hp).
  destruct (set_weights_spec ws st) as (Ht' & Hn' & Hr' & Hp').
  simpl in *. apply world_eq.
  - unfold RNNCell.set_weights in *.
    apply cell_eq; try congruence;
      match goal with
      | |- ?f (RNNCell.self (foldl _ ?a ws)) = ?f (RNNCell.self (foldl _ ?b ws)) =>
          pose proof (set_weights_other_fields ws a) as Ha;
          pose proof (set_weights_other_fields ws b) as Hb;
          simpl in Ha, Hb;
          destruct Ha as (?&?&?&?&?&?&?), Hb as (?&?&?&?&?&?&?); congruence
      end.
  - rewrite Hp, Hp'. apply bind_regularizers_twice.
Qed.

(** C8: assigning a list [ws] to [cell.weights] sorts the tensors of the
    entries into the trainable and the non-trainable list by the flag
    [trainable] of each entry, collects the regularizers that are present
    and binds each to the tensor of its entry ([set_param], in order; a
    regularizer object carried by entries of one tensor only ends up bound
    to that tensor); an entry that is not a [weight] counts as trainable
    and has no regularizer; what the three lists held before is dropped,
    and assigning the same list again changes nothing. *)
Theorem C8_weights_assignment (ws : list WeightEntry) (st : RNNCell.world) :
  let st' := RNNCell.set_weights ws st in
  let ws' := as_weight <$> ws in
  (RNNCell.trainable_weights (RNNCell.self st')
     = value <$> filter (λ w, truthy (trainable w) = true) ws'
   ∧ RNNCell.non_trainable_weights (RNNCell.self st')
     = value <$> filter (λ w, truthy (trainable w) = false) ws')
  ∧ (RNNCell.regularizers (RNNCell.self st') = omap regularizer ws'
     ∧ RNNCell.params st' = bind_regularizers ws' (RNNCell.params st)
     ∧ ∀ w r, w ∈ ws' → regularizer w = Some r →
         (∀ w' r', w' ∈ ws' → regularizer w' = Some r' → reg_id r' = reg_id r →
                   value w' = value w) →
         RNNCell.params st' !! reg_id r = Some (value w))
  ∧ (∀ v, truthy (trainable (as_weight (Unwrapped v))) = true
          ∧ regularizer (as_weight (Unwrapped v)) = None
          ∧ value (as_weight (Unwrapped v)) = weight_value v)
  ∧ (∀ tw ntw rs,
       RNNCell.set_weights ws
         {| RNNCell.self := RNNCell.set_weight_lists (RNNCell.self st) tw ntw rs;
            RNNCell.params := RNNCell.params st |} = st')
  ∧ RNNCell.set_weights ws st' = st'.
Proof.
  intros st' ws'.
  destruct (set_weights_spec ws st) as (Ht & Hn & Hr & Hp).
  split; [done|]. split; [|split; [done|split]].
  - split; [done|]. split; [done|].
    intros w r Hin Hreg Huniq. fold st' in Hp. rewrite Hp.
    rewrite bind_regularizers_lookup.
    destruct (last_binding_is_Some _ _ _ Hin Hreg) as [v Hv].
    fold ws'. rewrite Hv.
    apply last_binding_source in Hv as (w' & r' & Hin' & Hreg' & Hid & <-).
    f_equal. by apply (Huniq w' r').
  - intros. apply set_weights_replaces.
  - apply set_weights_idempotent.
Qed.

Lemma C8_weights_assignment_witness :
  RNNCell.params (RNNCell.set_weights sample_weights sample_world) !! reg_id l2_W
  = Some (VTensor "W" []).
Proof.
  pose proof (C8_weights_assignment sample_weights sample_world) as H.
  simpl in H. destruct H as (_ & (_ & _ & Hbound) & _).
  apply (Hbound {| value := VTensor "W" []; regularizer := Some l2_W;
                   trainable := VBool false |} l2_W).
  - set_solver.
  - reflexivity.
  - intros w' r' Hin Hreg _.
    apply elem_of_cons in Hin as [->|Hin]; [reflexivity|].
    apply list_elem_of_singleton in Hin as ->. discriminate Hreg.
Defined.

Example set_weights_sample :
  let c := RNNCell.self (RNNCell.set_weights sample_weights sample_world) in
  RNNCell.trainable_weights c = [VTensor "U" []]
  ∧ RNNCell.non_trainable_weights c = [VTensor "W" []]
  ∧ RNNCell.regularizers c = [l2_W].
Proof. repeat split. Qed.

(** ** RecurrentContainer.step *)

Section Step.

Import RecurrentContainer.

Lemma step_loop_app l1 l2 acc :
  step_loop (l1 ++ l2) acc = step_loop l1 acc ≫= step_loop l2.
Proof.
  revert acc. induction l1 as [|u l1 IH]; intros acc; simpl; [done|].
  destruct (step_layer u acc) as [acc'|e]; simpl; [apply IH|done].
Qed.

Lemma declared_states_app l1 l2 :
  declared_states (l1 ++ l2) = declared_states l1 + declared_states l2.
Proof. induction l1 as [|[c|p] l1 IH]; simpl; lia. Qed.

Lemma returns_declared_app l1 l2 acc :
  returns_declared (l1 ++ l2) acc →
  returns_declared l1 acc
  ∧ ∀ acc', step_loop l1 acc = Ok acc' → returns_declared l2 acc'.
Proof.
  revert acc. induction l1 as [|[c|p] l1 IH]; intros [[x sts] i]; simpl.
  - intros H. split; [done|]. by intros ? [= <-].
  - intros (y & new & Hstep & Hlen & Hrest).
    destruct (IH _ Hrest) as [H1 H2]. split; [by exists y, new|].
    intros acc'. rewrite Hstep. simpl. apply H2.
  - intros Hrest. apply (IH _ Hrest).
Qed.

(** The slice a Cell at offset [i] reads out of a vector whose first [i]
    positions were written by the Cells before it: positions of the input
    vector. *)
Lemma slice_behind_prefix {A} (P s0 : list A) i k :
  length P = i → slice (P ++ drop i s0) i (i + k) = slice s0 i (i + k).
Proof.
  intros HP. unfold slice. by rewrite drop_app_length'.
Qed.

Lemma slice_assign_behind_prefix {A} (P s0 new : list A) i k :
  length P = i →
  slice_assign (P ++ drop i s0) i (i + k) new = (P ++ new) ++ drop (i + k) s0.
Proof.
  intros HP. unfold slice_assign.
  rewrite take_app_length' by done.
  rewrite drop_app_ge by lia.
  rewrite drop_drop. rewrite <- app_assoc. repeat f_equal. lia.
Qed.

(** The invariant of the loop of [step]: the local state vector is what the
    Cells invoked so far returned, followed by the input vector from the
    current offset on. *)
Lemma step_loop_frame layers : ∀ x P s0 i,
  length P = i →
  returns_declared layers (x, P ++ drop i s0, i) →
  ∃ y Q,
    step_loop layers (x, P ++ drop i s0, i)
    = Ok (y, (P ++ Q) ++ drop (i + declared_states layers) s0,
          i + declared_states layers)
    ∧ length Q = declared_states layers.
Proof.
  induction layers as [|[c|p] layers IH]; intros x P s0 i HP Hret; simpl in *.
  - exists x, []. rewrite app_nil_r, Nat.add_0_r. done.
  - destruct Hret as (y & new & Hstep & Hlen & Hrest).
    rewrite Hstep. simpl.
    rewrite slice_assign_behind_prefix in * by done.
    destruct (IH y (P ++ new) s0 (i + length (RNNCell.states c))) as (z & Q & Hloop & HQ);
      [rewrite length_app; lia | done |].
    exists z, (new ++ Q). rewrite Hloop. split.
    + rewrite !app_assoc, !Nat.add_assoc. done.
    + rewrite length_app. lia.
  - destruct (IH (layer_call p x) P s0 i HP Hret) as (z & Q & Hloop & HQ).
    by exists z, Q.
Qed.

Lemma step_loop_frame0 layers x s0 :
  returns_declared layers (x, s0, 0) →
  ∃ y Q,
    step_loop layers (x, s0, 0)
    = Ok (y, Q ++ drop (declared_states layers) s0, declared_states layers)
    ∧ length Q = declared_states layers.
Proof.
  intros H. apply (step_loop_frame layers x [] s0 0); done.
Qed.

(** Positions from the offset on hold their input values. *)
Lemma lookup_behind_prefix {A} (Q s0 : list A) n j :
  length Q = n → n ≤ j → (Q ++ drop n s0) !! j = s0 !! j.
Proof.
  intros HQ Hj. rewrite lookup_app_r by lia. rewrite lookup_drop.
  f_equal. lia.
Qed.

Lemma step_length layers x s0 y sts' n :
  returns_declared layers (x, s0, 0) →
  step_loop layers (x, s0, 0) = Ok (y, sts', n) →
  length sts' = max (length s0) (declared_states layers).
Proof.
  intros Hret Hloop.
  destruct (step_loop_frame0 layers x s0 Hret) as (y' & Q & Hloop' & HQ).
  rewrite Hloop' in Hloop. injection Hloop as <- <- <-.
  rewrite length_app, length_drop. lia.
Qed.

End Step.

(** C2, as amended: provided every Cell invoked in the call returns as many
    new states as it declares, [step] runs the sub-units in the order of the
    list, and for every Cell [c] of the list, at offset t with k declared
    states: when the sub-units before [c] have run, every position from t on
    (those of [c], of the Cells after it, and any beyond) still holds its
    input value, so [c] is invoked on the slice [t, t+k) of the input
    vector; the loop goes on from the vector in which that slice is replaced
    by the new states [c] returned; the returned vector holds these new
    states at [t, t+k), and its positions beyond the last Cell's slice hold
    their input values. *)
Theorem C2_step_frame (self : RecurrentContainer.t) (done rest : list SubUnit)
  (c : RNNCell.t) (x : Value) (s0 : list Value) :
  RecurrentContainer.model self = done ++ Cell c :: rest →
  returns_declared (RecurrentContainer.model self) (x, s0, 0) →
  let t := declared_states done in
  let k := length (RNNCell.states c) in
  ∃ x1 st1 y new xf stf,
    RecurrentContainer.step_loop done (x, s0, 0) = Ok (x1, st1, t)
    ∧ (∀ j, t ≤ j → st1 !! j = s0 !! j)
    ∧ slice st1 t (t + k) = slice s0 t (t + k)
    ∧ RNNCell._step c x1 (slice s0 t (t + k)) = Ok (y, new)
    ∧ RecurrentContainer.step_loop rest (y, slice_assign st1 t (t + k) new, t + k)
      = Ok (xf, stf, declared_states (RecurrentContainer.model self))
    ∧ RecurrentContainer.step self x s0 = Ok (xf, stf)
    ∧ slice stf t (t + k) = new
    ∧ (∀ j, declared_states (RecurrentContainer.model self) ≤ j → stf !! j = s0 !! j).
Proof.
  intros Hmodel Hret t k. rewrite Hmodel in *.
  destruct (returns_declared_app _ _ _ Hret) as [Hdone Hafter].
  destruct (step_loop_frame0 done x s0 Hdone) as (x1 & Q1 & Hloop1 & HQ1).
  fold t in Hloop1, HQ1.
  specialize (Hafter _ Hloop1). simpl in Hafter.
  destruct Hafter as (y & new & Hstep & Hlen & Hrest). fold k in Hstep, Hlen, Hrest.
  rewrite slice_behind_prefix in Hstep by done.
  rewrite slice_assign_behind_prefix in Hrest by done.
  destruct (step_loop_frame rest y (Q1 ++ new) s0 (t + k)) as (xf & Q2 & Hloop2 & HQ2);
    [rewrite length_app; lia | done |].
  assert (Htotal : declared_states (done ++ Cell c :: rest)
                   = t + k + declared_states rest).
  { rewrite declared_states_app. simpl. fold t k. lia. }
  exists x1, (Q1 ++ drop t s0), y, new, xf,
    (((Q1 ++ new) ++ Q2) ++ drop (t + k + declared_states rest) s0).
  split; [done|]. split; [intros j Hj; by apply lookup_behind_prefix|].
  split; [by apply slice_behind_prefix|]. split; [done|].
  rewrite slice_assign_behind_prefix by done. rewrite Htotal.
  split; [done|]. split; [|split].
  - unfold RecurrentContainer.step. rewrite Hmodel, step_loop_app, Hloop1. simpl.
    fold k. rewrite slice_behind_prefix, Hstep by done. simpl.
    rewrite slice_assign_behind_prefix by done. rewrite Hloop2. done.
  - unfold slice. rewrite <- !app_assoc.
    rewrite drop_app_length' by done.
    replace (t + k - t) with k by lia. by rewrite take_app_length'.
  - intros j Hj. apply lookup_behind_prefix; [|done].
    rewrite !length_app. lia.
Qed.

Lemma C2_step_frame_witness :
  ∃ x1 st1 y new xf stf,
    RecurrentContainer.step_loop [Plain identity_layer] (x0, [h0; h1], 0)
    = Ok (x1, st1, 0)
    ∧ (∀ j, 0 ≤ j → st1 !! j = [h0; h1] !! j)
    ∧ slice st1 0 1 = slice [h0; h1] 0 1
    ∧ RNNCell._step two_arg_function_cell x1 (slice [h0; h1] 0 1) = Ok (y, new)
    ∧ RecurrentContainer.step_loop [Cell two_arg_function_cell]
        (y, slice_assign st1 0 1 new, 1) = Ok (xf, stf, 2)
    ∧ RecurrentContainer.step
        (container_of false
           [Plain identity_layer; Cell two_arg_function_cell;
            Cell two_arg_function_cell]) x0 [h0; h1] = Ok (xf, stf)
    ∧ slice stf 0 1 = new
    ∧ (∀ j, 2 ≤ j → stf !! j = [h0; h1] !! j).
Proof.
  apply (C2_step_frame
           (container_of false
              [Plain identity_layer; Cell two_arg_function_cell;
               Cell two_arg_function_cell])
           [Plain identity_layer] [Cell two_arg_function_cell]
           two_arg_function_cell x0 [h0; h1]).
  - reflexivity.
  - simpl. eexists _, _. split; [reflexivity|]. split; [reflexivity|].
    eexists _, _. split; [reflexivity|]. split; reflexivity.
Defined.

(** C2 fails as stated when a Cell returns more new states than it
    declares: after [growing_cell] (one declared state, two returned) has
    run, position 1, which belongs to the next Cell, not yet invoked, holds
    the second returned state and not its input value; the next Cell is
    invoked on it, and the returned vector has three positions. *)
Lemma C2_counterexample :
  RecurrentContainer.step_loop [Cell growing_cell] (x0, [h0; h1], 0)
  = Ok (x0, [VTensor "n0" []; VTensor "n1" []; h1], 1)
  ∧ [VTensor "n0" []; VTensor "n1" []; h1] !! 1 ≠ [h0; h1] !! 1
  ∧ RecurrentContainer.step
      (container_of false [Cell growing_cell; Cell two_arg_function_cell])
      x0 [h0; h1]
    = Ok (VTensor "add" [x0; VTensor "n1" []],
          [VTensor "n0" []; VTensor "add" [x0; VTensor "n1" []]; h1]).
Proof. repeat split. discriminate. Qed.

(** A pipeline of one stateless identity layer returns its input and the
    state vector as they are. *)
Example step_identity_layer :
  RecurrentContainer.step (container_of false [Plain identity_layer]) x0 [h0; h1]
  = Ok (x0, [h0; h1]).
Proof. reflexivity. Qed.

(** Stateless layers do not touch the state vector. *)
Lemma step_loop_plain layers x sts i :
  Forall (λ u, ∃ l, u = Plain l) layers →
  ∃ y, RecurrentContainer.step_loop layers (x, sts, i) = Ok (y, sts, i).
Proof.
  intros Hall. revert x. induction Hall as [|u layers [l ->] _ IH]; intros x; simpl.
  - by exists x.
  - apply IH.
Qed.

(** The length of the vector [step] returns, when every invoked Cell
    returns as many new states as it declares. *)
Lemma step_returns_length (self : RecurrentContainer.t) (x : Value) (sts : list Value) :
  returns_declared (RecurrentContainer.model self) (x, sts, 0) →
  ∃ y sts', RecurrentContainer.step self x sts = Ok (y, sts')
            ∧ length sts' = max (length sts) (declared_states (RecurrentContainer.model self)).
Proof.
  intros Hret.
  destruct (step_loop_frame0 _ x sts Hret) as (y & Q & Hloop & HQ).
  eexists y, _. unfold RecurrentContainer.step. rewrite Hloop. simpl.
  split; [done|]. rewrite length_app, length_drop. lia.
Qed.

(** C10, as amended: when every Cell invoked in the call returns as many
    new states as it declares, and the state sequence passed in has at least
    as many entries as the Cells of the container declare in total, [step]
    returns a state vector of the length of the one passed in. *)
Theorem C10_step_keeps_length (self : RecurrentContainer.t) (x : Value)
  (sts : list Value) :
  returns_declared (RecurrentContainer.model self) (x, sts, 0) →
  declared_states (RecurrentContainer.model self) ≤ length sts →
  ∃ y sts', RecurrentContainer.step self x sts = Ok (y, sts')
            ∧ length sts' = length sts.
Proof.
  intros Hret Hlen.
  destruct (step_returns_length self x sts Hret) as (y & sts' & Hstep & Hl).
  exists y, sts'. split; [done|]. lia.
Qed.

Lemma C10_step_keeps_length_witness :
  ∃ y sts',
    RecurrentContainer.step (container_of false [Cell two_arg_function_cell]) x0 [h0; h1]
    = Ok (y, sts')
    ∧ length sts' = length [h0; h1].
Proof.
  apply (C10_step_keeps_length (container_of false [Cell two_arg_function_cell])
           x0 [h0; h1]).
  - simpl. eexists _, _. split; [reflexivity|]. split; reflexivity.
  - simpl. lia.
Defined.

(** C10 fails as stated on a state sequence shorter than what the Cells
    declare: on the empty sequence a Cell with one declared state, whose
    step returns exactly one new state, makes [step] return a vector of
    length 1. *)
Lemma C10_counterexample :
  returns_declared
    (RecurrentContainer.model (container_of false [Cell two_arg_function_cell]))
    (x0, [], 0)
  ∧ RecurrentContainer.step (container_of false [Cell two_arg_function_cell]) x0 []
    = Ok (x0, [x0])
  ∧ length [x0] ≠ length (@nil Value).
Proof.
  split; [|split; [reflexivity|discriminate]].
  simpl. eexists _, _. split; [reflexivity|]. split; reflexivity.
Qed.

(** ** Initial states *)

Lemma layer_initial_states_concat c input bs il :
  RecurrentContainer.layer_initial_states c input bs il
  = concat (map (λ s, as_list (RecurrentContainer._get_state_from_info s input bs il))
              (RNNCell.states c)).
Proof.
  unfold RecurrentContainer.layer_initial_states.
  generalize (RNNCell.states c) as specs.
  enough (∀ specs acc,
    foldl (λ acc state,
             let st := RecurrentContainer._get_state_from_info state input bs il in
             let st := match st with VList l => l | _ => [st] end in
             acc ++ st) acc specs
    = acc ++ concat (map (λ s, as_list (RecurrentContainer._get_state_from_info s input bs il)) specs))
    as H by (intros; apply (H specs [])).
  induction specs as [|s specs IH]; intros acc; simpl.
  - by rewrite app_nil_r.
  - rewrite IH, <- app_assoc. reflexivity.
Qed.

Lemma resolved_sizes_spec self x b n rest :
  RecurrentContainer.input_spec self = Some (b :: n :: rest) →
  RecurrentContainer.resolved_sizes self x
  = Ok (resolved_size b x 0, resolved_size n x 1).
Proof.
  intros H. unfold RecurrentContainer.resolved_sizes, RecurrentContainer.get_input_shape.
  rewrite H. simpl. by destruct b, n.
Qed.

(** The first Cell of a pipeline gets its states resolved against the first
    timestep of the input, is stepped once on them, and its output is the
    running input of the layers after it. *)
Lemma get_initial_states_first_cell self x b n rest c layers :
  RecurrentContainer.input_spec self = Some (b :: n :: rest) →
  RecurrentContainer.model self = Cell c :: layers →
  RecurrentContainer.get_initial_states self x
  = let batch_size := resolved_size b x 0 in
    let input_length := resolved_size n x 1 in
    let lis := RecurrentContainer.layer_initial_states c
                 (RecurrentContainer._get_first_timestep x) batch_size input_length in
    '(input', _) ← RNNCell._step c (RecurrentContainer._get_first_timestep x) lis;
    RecurrentContainer.initial_states_loop layers input' batch_size input_length lis.
Proof.
  intros Hspec Hmodel. unfold RecurrentContainer.get_initial_states.
  rewrite (resolved_sizes_spec self x b n rest Hspec), Hmodel. reflexivity.
Qed.

(** The initial state vector has one entry per declared state when no state
    specification resolves to a list. *)
Example initial_states_sample :
  RecurrentContainer.get_initial_states
    (RecurrentContainer.set_input_shape [VInt 5; VInt 7; VInt 1]
       (container_of false [Cell sized_cell; Plain identity_layer; Cell literal_cell])) x0
  = Ok [k_zeros [VInt 5; VInt 7; VInt 4]; K_variable (VNumpy "array" [VList [VInt 1]])].
Proof. reflexivity. Qed.

(** C3, as amended: in non-persistent mode a state specification is
    resolved by these rules: a callable is called with the current running
    input and its result is used; a shape tuple gets every -1 or
    'batch_size' replaced by the resolved batch size and every
    'input_length' by the resolved input length, and becomes a zero tensor
    of that shape; a literal array is wrapped as a variable; anything else
    is passed through.  The resolved sizes are those of the input spec, a
    size that is None there being the run-time size [K.shape(x)[i]]: no
    check that they are integers is made in this branch.  The states of a
    Cell are the results for its specifications in order, a result that is
    a list contributing its items. *)
Theorem C3_state_from_info (self : RecurrentContainer.t) (x b n : Value)
  (rest : list Value) (c : RNNCell.t) (info : StateSpec) (input : Value) :
  RecurrentContainer.input_spec self = Some (b :: n :: rest) →
  let batch_size := resolved_size b x 0 in
  let input_length := resolved_size n x 1 in
  let r := RecurrentContainer._get_state_from_info info input batch_size input_length in
  RecurrentContainer.resolved_sizes self x = Ok (batch_size, input_length)
  ∧ match info with
    | SCallable f => r = f input
    | SValue (VTuple dims) =>
        ∃ shape, r = k_zeros shape
                 ∧ length shape = length dims
                 ∧ ∀ i d, dims !! i = Some d →
                     shape !! i = Some (if is_batch_sentinel d then batch_size
                                        else if is_length_sentinel d then input_length
                                        else d)
    | SValue (VNumpy op args) => r = K_variable (VNumpy op args)
    | SValue v => r = v
    end
  ∧ RecurrentContainer.layer_initial_states c input batch_size input_length
    = concat (map (λ s, as_list (RecurrentContainer._get_state_from_info
                                   s input batch_size input_length))
                (RNNCell.states c)).
Proof.
  intros Hspec batch_size input_length r.
  split; [by apply (resolved_sizes_spec self x b n rest)|].
  split; [|apply layer_initial_states_concat].
  destruct info as [f|v]; [done|]. destruct v; try done.
  subst r. simpl. eexists. split; [reflexivity|].
  split; [by rewrite length_map|].
  intros i d Hd. by rewrite list_lookup_fmap, Hd.
Qed.

(** A shape with both sentinels against batch size 5 and input length 7. *)
Lemma C3_state_from_info_witness :
  ∃ shape,
    RecurrentContainer._get_state_from_info
      (SValue (VTuple [VStr "batch_size"; VStr "input_length"; VInt 4]))
      x0 (VInt 5) (VInt 7) = k_zeros shape
    ∧ length shape = 3
    ∧ ∀ i d, [VStr "batch_size"; VStr "input_length"; VInt 4] !! i = Some d →
        shape !! i = Some (if is_batch_sentinel d then VInt 5
                           else if is_length_sentinel d then VInt 7 else d).
Proof.
  pose proof (C3_state_from_info
                (RecurrentContainer.set_input_shape [VInt 5; VInt 7; VInt 1]
                   (container_of false [Cell sized_cell]))
                x0 (VInt 5) (VInt 7) [VInt 1] sized_cell
                (SValue (VTuple [VStr "batch_size"; VStr "input_length"; VInt 4]))
                x0 eq_refl) as H.
  simpl in H. destruct H as (_ & H & _). exact H.
Defined.

Example state_from_info_5_7 :
  RecurrentContainer._get_state_from_info
    (SValue (VTuple [VStr "batch_size"; VStr "input_length"; VInt 4]))
    x0 (VInt 5) (VInt 7)
  = k_zeros [VInt 5; VInt 7; VInt 4].
Proof. reflexivity. Qed.

(** C3 fails as stated where it requires the resolved sizes to be integers:
    with an input spec [(None, None, 1)] the shape
    [('batch_size', 'input_length', 4)] is resolved, without any error, to
    zeros of a shape whose first two sizes are the run-time sizes of the
    input, which are no integers. *)
Lemma C3_counterexample :
  RecurrentContainer.input_spec (container_of false [Cell sized_cell])
  = Some [VNone; VNone; VInt 1]
  ∧ RecurrentContainer.get_initial_states (container_of false [Cell sized_cell]) x0
    = Ok [k_zeros [K_shape_at x0 0; K_shape_at x0 1; VInt 4]]
  ∧ is_int (K_shape_at x0 0) = false
  ∧ is_int (K_shape_at x0 1) = false.
Proof. repeat split. Qed.

(** ** reset_states *)

Section ResetStates.

Import RecurrentContainer.

Lemma sentinels_disjoint d :
  is_batch_sentinel d = true → is_length_sentinel d = false.
Proof.
  destruct d; simpl; try done.
  intros H%String.eqb_eq. by subst.
Qed.

(** A size that resolves does not make the shape unresolvable. *)
Lemma unresolvable_cons d dims b n :
  (is_batch_sentinel d = true → is_int b = true) →
  (is_length_sentinel d = true → is_int n = true) →
  unresolvable (d :: dims) b n ↔ unresolvable dims b n.
Proof.
  intros Hb Hn. split.
  - intros (d' & Hd' & Hbad). apply elem_of_cons in Hd' as [->|Hd'].
    + destruct Hbad as [[H1 H2]|[H1 H2]]; [rewrite Hb in H2|rewrite Hn in H2]; done.
    + by exists d'.
  - intros (d' & Hd' & Hbad). exists d'. split; [apply elem_of_cons; by right|done].
Qed.

Lemma resolve_static_cases dims b n :
  (∃ shape, resolve_static dims b n = Ok shape
            ∧ length shape = length dims ∧ ¬ unresolvable dims b n)
  ∨ (resolve_static dims b n = Raise (AssertionError static_shapes_msg)
     ∧ unresolvable dims b n).
Proof.
  induction dims as [|d dims IH]; simpl.
  - left. exists []. split; [done|]. split; [done|].
    intros (d & Hd & _). by apply elem_of_nil in Hd.
  - assert (Hgo : ∀ d',
      (is_batch_sentinel d = true → is_int b = true) →
      (is_length_sentinel d = true → is_int n = true) →
      (∃ shape, (Ok d' ≫= λ d', resolve_static dims b n ≫= λ rest', Ok (d' :: rest'))
                = Ok shape
                ∧ length shape = S (length dims) ∧ ¬ unresolvable (d :: dims) b n)
      ∨ ((Ok d' ≫= λ d', resolve_static dims b n ≫= λ rest', Ok (d' :: rest'))
         = Raise (AssertionError static_shapes_msg)
         ∧ unresolvable (d :: dims) b n)).
    { intros d' Hb Hn. pose proof (unresolvable_cons d dims b n Hb Hn) as Hcons. simpl.
      destruct IH as [(shape & -> & Hlen & Hnot)|[-> Hbad]]; simpl.
      - left. exists (d' :: shape). split; [done|].
        split; [simpl; by rewrite Hlen|by rewrite Hcons].
      - right. split; [done|]. by apply Hcons. }
    destruct (is_batch_sentinel d) eqn:Eb.
    + destruct (is_int b) eqn:Ib.
      * apply Hgo; [done|]. by rewrite (sentinels_disjoint d Eb).
      * right. split; [done|]. exists d. split; [apply elem_of_cons; by left|by left].
    + destruct (is_length_sentinel d) eqn:El.
      * destruct (is_int n) eqn:In.
        -- by apply Hgo.
        -- right. split; [done|]. exists d.
           split; [apply elem_of_cons; by left|by right].
      * by apply Hgo.
Qed.

Lemma static_state_cases spec b n :
  (∃ buf, static_state spec b n = Ok buf
          ∧ rebuilt_buffer b n spec buf ∧ ¬ not_static spec b n)
  ∨ (static_state spec b n = Raise (AssertionError static_shapes_msg)
     ∧ not_static spec b n).
Proof.
  destruct spec as [f|v]; simpl; [by right|].
  destruct v; simpl; try (by right);
    try (destruct (resolve_static_cases items b n)
           as [(shape & -> & Hlen & Hnot)|[-> Hbad]]; simpl;
         [left; eexists; split; [done|]; split; [by exists shape|done]
         |by right]).
  left. eexists. split; [done|]. split; [done|]. tauto.
Qed.

Lemma reset_cell_cases specs b n : ∀ sts,
  (∃ bufs, reset_cell specs b n sts = Ok (sts ++ bufs)
           ∧ Forall2 (rebuilt_buffer b n) specs bufs
           ∧ Forall (λ s, ¬ not_static s b n) specs)
  ∨ (reset_cell specs b n sts = Raise (AssertionError static_shapes_msg)
     ∧ Exists (λ s, not_static s b n) specs).
Proof.
  induction specs as [|s specs IH]; intros sts; simpl.
  - left. exists []. by rewrite app_nil_r.
  - destruct (static_state_cases s b n) as [(buf & -> & Hbuf & Hok)|[-> Hbad]]; simpl.
    + destruct (IH (sts ++ [buf])) as [(bufs & -> & Hall & Hoks)|[-> Hex]].
      * left. exists (buf :: bufs). rewrite <- app_assoc. simpl.
        split; [done|]. split; by constructor.
      * right. split; [done|]. by apply Exists_cons_tl.
    + right. split; [done|]. by apply Exists_cons_hd.
Qed.

Lemma reset_layers_cases layers b n : ∀ sts,
  (∃ bufs, reset_layers layers b n sts = Ok (sts ++ bufs)
           ∧ Forall2 (rebuilt_buffer b n) (declared_specs layers) bufs
           ∧ Forall (λ s, ¬ not_static s b n) (declared_specs layers))
  ∨ (reset_layers layers b n sts = Raise (AssertionError static_shapes_msg)
     ∧ Exists (λ s, not_static s b n) (declared_specs layers)).
Proof.
  induction layers as [|[c|p] layers IH]; intros sts; simpl.
  - left. exists []. by rewrite app_nil_r.
  - destruct (reset_cell_cases (RNNCell.states c) b n sts)
      as [(bufs & -> & Hall & Hoks)|[-> Hex]]; simpl.
    + destruct (IH (sts ++ bufs)) as [(bufs' & -> & Hall' & Hoks')|[-> Hex]].
      * left. exists (bufs ++ bufs'). rewrite <- app_assoc.
        split; [done|]. split; [by apply Forall2_app|by apply Forall_app].
      * right. split; [done|]. apply Exists_app. by right.
    + right. split; [done|]. apply Exists_app. by left.
  - apply IH.
Qed.

Lemma elem_of_declared_specs layers spec :
  spec ∈ declared_specs layers ↔
  ∃ c, Cell c ∈ layers ∧ spec ∈ RNNCell.states c.
Proof.
  induction layers as [|[c|p] layers IH]; simpl.
  - split; [intros H; by apply elem_of_nil in H|].
    intros (c & H & _). by apply elem_of_nil in H.
  - rewrite elem_of_app, IH. split.
    + intros [H|(c' & H1 & H2)].
      * exists c. split; [apply elem_of_cons; by left|done].
      * exists c'. split; [apply elem_of_cons; by right|done].
    + intros (c' & H1 & H2). apply elem_of_cons in H1 as [[= ->]|H1]; [by left|].
      right. by exists c'.
  - rewrite IH. split; intros (c' & H1 & H2); exists c'; (split; [|done]).
    + apply elem_of_cons; by right.
    + apply elem_of_cons in H1 as [?|?]; [discriminate|done].
Qed.

Lemma declared_specs_length layers :
  length (declared_specs layers) = declared_states layers.
Proof.
  induction layers as [|[c|p] layers IH]; simpl; [done| |done].
  rewrite length_app. lia.
Qed.

Lemma declared_specs_app l1 l2 :
  declared_specs (l1 ++ l2) = declared_specs l1 ++ declared_specs l2.
Proof.
  induction l1 as [|[c|p] l1 IH]; simpl; [done| |done].
  by rewrite IH, app_assoc.
Qed.

(** [reset_states] on a container whose input spec is set: the outcome is
    decided by the state specifications alone. *)
Lemma reset_states_cases self b n rest :
  input_spec self = Some (b :: n :: rest) →
  (∃ bufs, reset_states self = (Ok tt, set_states bufs self)
           ∧ Forall2 (rebuilt_buffer b n) (declared_specs (model self)) bufs
           ∧ Forall (λ s, ¬ not_static s b n) (declared_specs (model self)))
  ∨ (reset_states self = (Raise (AssertionError static_shapes_msg), self)
     ∧ Exists (λ s, not_static s b n) (declared_specs (model self))).
Proof.
  intros Hspec.
  unfold reset_states, mthen, mget, mlift, mset, get_input_shape.
  rewrite Hspec. simpl.
  destruct (reset_layers_cases (model self) b n [])
    as [(bufs & -> & Hall & Hoks)|[-> Hex]]; [left|right]; eauto.
Qed.

End ResetStates.

(** C5: on a container whose input spec is set (it is from the first [add]
    on), the batch size [b] and the input length [n] being its first two
    entries: when some Cell has a state specification that is a callable, a
    raw tensor (or anything else that is neither a shape nor an array), or
    a shape with a batch-size sentinel while [b] is no integer or an
    input-length sentinel while [n] is no integer, [reset_states] raises the
    assertion error 'Stateful RNNs require states with static shapes' and
    leaves the container, its attribute [states] included, as it was. *)
Theorem C5_reset_states_rejects (self : RecurrentContainer.t) (b n : Value)
  (rest : list Value) (c : RNNCell.t) (spec : StateSpec) :
  RecurrentContainer.input_spec self = Some (b :: n :: rest) →
  Cell c ∈ RecurrentContainer.model self →
  spec ∈ RNNCell.states c →
  not_static spec b n →
  RecurrentContainer.reset_states self
  = (Raise (AssertionError "Stateful RNNs require states with static shapes"), self)
  ∧ RecurrentContainer.states (RecurrentContainer.reset_states self).2
    = RecurrentContainer.states self.
Proof.
  intros Hspec Hc Hin Hbad.
  destruct (reset_states_cases self b n rest Hspec)
    as [(bufs & _ & _ & Hoks)|[Hraise _]].
  - exfalso. rewrite Forall_forall in Hoks. apply (Hoks spec); [|done].
    apply elem_of_declared_specs. by exists c.
  - by rewrite Hraise.
Qed.

(** Persistent mode with a batch size that is not known: the input spec is
    [(None, None, 1)] and the shape of the state has a batch-size sentinel. *)
Lemma C5_reset_states_rejects_witness :
  RecurrentContainer.reset_states (container_of true [Cell sized_cell])
  = (Raise (AssertionError "Stateful RNNs require states with static shapes"),
     container_of true [Cell sized_cell])
  ∧ RecurrentContainer.states
      (RecurrentContainer.reset_states (container_of true [Cell sized_cell])).2
    = RecurrentContainer.states (container_of true [Cell sized_cell]).
Proof.
  apply (C5_reset_states_rejects (container_of true [Cell sized_cell])
           VNone VNone [VInt 1] sized_cell
           (SValue (VTuple [VStr "batch_size"; VStr "input_length"; VInt 4]))).
  - reflexivity.
  - apply elem_of_cons. by left.
  - apply elem_of_cons. by left.
  - exists (VStr "batch_size"). split; [apply elem_of_cons; by left|].
    left. split; reflexivity.
Defined.

Example reset_states_rejects_callable :
  RecurrentContainer.reset_states (container_of true [Plain identity_layer; Cell callable_cell])
  = (Raise (AssertionError "Stateful RNNs require states with static shapes"),
     container_of true [Plain identity_layer; Cell callable_cell]).
Proof. reflexivity. Qed.

(** ** add, pop *)

Section AddPop.

Import RecurrentContainer.

Lemma reset_states_ok_inv s s' :
  reset_states s = (Ok tt, s') →
  ∃ b n rest bufs,
    input_spec s = Some (b :: n :: rest)
    ∧ s' = set_states bufs s
    ∧ reset_layers (model s) b n [] = Ok bufs.
Proof.
  unfold reset_states, mthen, mget, mlift, mset, get_input_shape.
  destruct (input_spec s) as [[|b [|n rest]]|] eqn:Hspec; simpl; try done.
  destruct (reset_layers (model s) b n []) as [bufs|e] eqn:Hr; simpl; [|done].
  intros [= <-]. by exists b, n, rest, bufs.
Qed.

Lemma add_inv layer s s1 :
  add layer s = (Ok tt, s1) →
  model s1 = model s ++ [layer]
  ∧ stateful s1 = stateful s
  ∧ (model s ≠ [] → input_spec s1 = input_spec s)
  ∧ (truthy (stateful s) = false → states s1 = states s).
Proof.
  unfold add, mthen, mset, mget, mreturn, mlift, Sequential_add. simpl.
  destruct (decide (length (model s ++ [layer]) = 1)) as [Hone|Hmany].
  - assert (model s = []) as Hnil.
    { destruct (model s); [done|]. simpl in Hone. rewrite length_app in Hone.
      simpl in Hone. lia. }
    destruct (subunit_input_shape layer) as [shape|e]; simpl; [|done].
    destruct (index shape 0) as [b|e]; simpl; [|done].
    destruct (truthy (stateful s)) eqn:Hst.
    + intros H. apply reset_states_ok_inv in H as (? & ? & ? & bufs & _ & -> & _).
      simpl. rewrite Hnil. done.
    + intros [= <-]. simpl. rewrite Hnil. done.
  - destruct (truthy (stateful s)) eqn:Hst.
    + intros H. apply reset_states_ok_inv in H as (? & ? & ? & bufs & _ & -> & _).
      simpl. done.
    + intros [= <-]. simpl. done.
Qed.

Lemma pop_inv s1 s2 :
  pop s1 = (Ok tt, s2) →
  model s2 = removelast (model s1)
  ∧ (truthy (stateful s1) = false → states s2 = states s1)
  ∧ (truthy (stateful s1) = true →
       reset_states (set_model (removelast (model s1)) s1) = (Ok tt, s2)).
Proof.
  unfold pop, mthen, mset, mget, mreturn, mlift, Sequential_pop.
  destruct (model s1) as [|u l] eqn:Hm; [done|]. cbn [fst snd].
  destruct (truthy (stateful s1)) eqn:Hst.
  - cbn -[removelast reset_states]. intros H. split; [|done].
    apply reset_states_ok_inv in H as (? & ? & ? & bufs & _ & -> & _). done.
  - cbn -[removelast reset_states]. intros [= <-]. done.
Qed.

(** The input spec is set by the first [add] and kept from then on: a
    container that got its layers through [add] and [pop] has an input spec
    with a batch size and an input length. *)
Lemma add_input_spec layer s s1 :
  add layer s = (Ok tt, s1) →
  (model s ≠ [] → ∃ b n rest, input_spec s = Some (b :: n :: rest)) →
  ∃ b n rest, input_spec s1 = Some (b :: n :: rest).
Proof.
  intros Hadd Hprior.
  destruct (model s) as [|u l] eqn:Hmodel.
  - revert Hadd.
    unfold add, mthen, mset, mget, mreturn, mlift, Sequential_add. simpl.
    rewrite Hmodel. simpl.
    destruct (subunit_input_shape layer) as [shape|e]; simpl; [|done].
    destruct (index shape 0) as [b|e]; simpl; [|done].
    destruct (truthy (stateful s)).
    + intros H. apply reset_states_ok_inv in H as (? & ? & ? & bufs & _ & -> & _).
      simpl. eauto.
    + intros [= <-]. simpl. eauto.
  - destruct (add_inv _ _ _ Hadd) as (_ & _ & Hspec & _).
    rewrite Hspec by (by rewrite Hmodel). by apply Hprior.
Qed.

Lemma pop_input_spec s1 s2 :
  pop s1 = (Ok tt, s2) → input_spec s2 = input_spec s1.
Proof.
  unfold pop, mthen, mset, mget, mreturn, mlift, Sequential_pop.
  destruct (model s1) as [|u l] eqn:Hm; [done|]. cbn [fst snd].
  destruct (truthy (stateful s1)) eqn:Hst.
  - cbn -[removelast reset_states]. intros H.
    apply reset_states_ok_inv in H as (? & ? & ? & bufs & _ & -> & _). done.
  - cbn -[removelast reset_states]. intros [= <-]. done.
Qed.

Lemma reset_layers_ok layers b n bufs :
  reset_layers layers b n [] = Ok bufs →
  Forall2 (rebuilt_buffer b n) (declared_specs layers) bufs.
Proof.
  intros H. destruct (reset_layers_cases layers b n [])
    as [(bufs' & H' & Hall & _)|[H' _]]; rewrite H in H'; [|done].
  by injection H' as ->.
Qed.

End AddPop.

(** C7, as amended: [add(layer)] followed by [pop()], both returning,
    leaves the sub-unit list as it was.  In persistent mode the state vector
    is then the one [reset_states] builds for that list: one variable per
    declared state, holding zeros of the resolved shape for a state given
    as a shape and the literal array for a state given as an array (the
    values of a literal are restored, not zero); it is the vector a
    [reset_states] of the container before the [add] builds.  Out of
    persistent mode the attribute [states] is not touched. *)
Theorem C7_add_then_pop (self self1 self2 : RecurrentContainer.t) (layer : SubUnit) :
  RecurrentContainer.add layer self = (Ok tt, self1) →
  RecurrentContainer.pop self1 = (Ok tt, self2) →
  RecurrentContainer.model self2 = RecurrentContainer.model self
  ∧ (truthy (RecurrentContainer.stateful self) = false →
       RecurrentContainer.states self2 = RecurrentContainer.states self)
  ∧ (truthy (RecurrentContainer.stateful self) = true →
       ∃ b n rest bufs,
         RecurrentContainer.input_spec self2 = Some (b :: n :: rest)
         ∧ RecurrentContainer.states self2 = Some bufs
         ∧ length bufs = declared_states (RecurrentContainer.model self)
         ∧ Forall2 (rebuilt_buffer b n)
             (declared_specs (RecurrentContainer.model self)) bufs
         ∧ ∀ self', RecurrentContainer.reset_states self = (Ok tt, self') →
             RecurrentContainer.states self' = Some bufs).
Proof.
  intros Hadd Hpop.
  destruct (add_inv _ _ _ Hadd) as (Hm1 & Hst1 & Hspec1 & Hkeep1).
  destruct (pop_inv _ _ Hpop) as (Hm2 & Hkeep2 & Hreset).
  rewrite Hm1, removelast_last in Hm2, Hreset. rewrite Hst1 in Hkeep2, Hreset.
  split; [done|]. split.
  - intros Hst. by rewrite Hkeep2, Hkeep1.
  - intros Hst. specialize (Hreset Hst).
    apply reset_states_ok_inv in Hreset as (b & n & rest & bufs & Hspec & -> & Hbufs).
    simpl in Hspec, Hbufs.
    pose proof (reset_layers_ok _ _ _ _ Hbufs) as Hall.
    exists b, n, rest, bufs. split; [done|]. split; [done|]. split.
    { rewrite <- declared_specs_length. symmetry. by eapply Forall2_length. }
    split; [done|].
    intros self' Hprior.
    apply reset_states_ok_inv in Hprior as (b' & n' & rest' & bufs' & Hspec' & -> & Hbufs').
    simpl. f_equal.
    destruct (RecurrentContainer.model self) as [|u l] eqn:Hmodel.
    + simpl in Hbufs, Hbufs'. congruence.
    + rewrite Hspec1 in Hspec by done. congruence.
Qed.

Lemma C7_add_then_pop_witness :
  RecurrentContainer.add (Plain identity_layer) literal_container
  = (Ok tt, literal_container_added)
  ∧ RecurrentContainer.pop literal_container_added = (Ok tt, literal_container_popped)
  ∧ RecurrentContainer.model literal_container_popped
    = RecurrentContainer.model literal_container
  ∧ (truthy (RecurrentContainer.stateful literal_container) = false →
       RecurrentContainer.states literal_container_popped
       = RecurrentContainer.states literal_container)
  ∧ (truthy (RecurrentContainer.stateful literal_container) = true →
       ∃ b n rest bufs,
         RecurrentContainer.input_spec literal_container_popped = Some (b :: n :: rest)
         ∧ RecurrentContainer.states literal_container_popped = Some bufs
         ∧ length bufs = declared_states (RecurrentContainer.model literal_container)
         ∧ Forall2 (rebuilt_buffer b n)
             (declared_specs (RecurrentContainer.model literal_container)) bufs
         ∧ ∀ self', RecurrentContainer.reset_states literal_container = (Ok tt, self') →
             RecurrentContainer.states self' = Some bufs).
Proof.
  split; [reflexivity|]. split; [reflexivity|].
  apply (C7_add_then_pop literal_container literal_container_added
           literal_container_popped (Plain identity_layer)); reflexivity.
Defined.

(** C7 fails as stated for a Cell whose state is given as a literal array:
    after [add] and [pop] in persistent mode the state vector holds a
    variable with the values of the literal, [array([1])], not zeros. *)
Lemma C7_counterexample :
  RecurrentContainer.add (Plain identity_layer) literal_container
  = (Ok tt, literal_container_added)
  ∧ RecurrentContainer.pop literal_container_added = (Ok tt, literal_container_popped)
  ∧ RecurrentContainer.states literal_container_popped
    = Some [K_variable (VNumpy "array" [VList [VInt 1]])]
  ∧ is_zero_buffer (K_variable (VNumpy "array" [VList [VInt 1]])) = false.
Proof. repeat split. Qed.

Example add_then_pop_zero_buffers :
  RecurrentContainer.states
    (RecurrentContainer.pop
       (RecurrentContainer.add (Plain identity_layer)
          (RecurrentContainer.set_input_shape [VInt 2; VInt 3; VInt 1]
             (container_of true [Cell sized_cell]))).2).2
  = Some [K_variable (np_zeros [VInt 2; VInt 3; VInt 4])].
Proof. reflexivity. Qed.

(** ** call *)

Section CallFacts.

Import RecurrentContainer.

(** The loop that records the updates: it pairs the persistent variables
    from position [i] on with the final states, and touches nothing else. *)
Lemma record_updates_spec sts : ∀ i s own ups,
  states s = Some own →
  updates s = Some ups →
  i + length sts ≤ length own →
  record_updates sts i s = (Ok tt, set_updates (ups ++ zip (drop i own) sts) s).
Proof.
  induction sts as [|st sts IH]; intros i s own ups Hown Hups Hlen.
  - simpl. unfold mreturn. f_equal.
    rewrite zip_with_nil_r, app_nil_r. destruct s; simpl in *. by subst.
  - simpl in Hlen.
    destruct (lookup_lt_is_Some_2 own i) as [var Hvar]; [lia|].
    cbn [record_updates]. unfold mthen, mget, mlift, mset, get_updates, get_states, index.
    rewrite Hups, Hown. cbn [fst snd]. rewrite Hvar.
    rewrite (IH (S i) _ own (ups ++ [(var, st)])); [|done|done|simpl; lia].
    rewrite (drop_S own var i Hvar). rewrite <- app_assoc. reflexivity.
Qed.

Lemma zip_lookup (own sts : list Value) i var new :
  zip own sts !! i = Some (var, new) ↔ own !! i = Some var ∧ sts !! i = Some new.
Proof.
  rewrite lookup_zip_with_Some. split.
  - intros (a & b & [= -> ->] & ? & ?). done.
  - intros [? ?]. by exists var, new.
Qed.

End CallFacts.

(** C1: [call] starts the scan from the persistent state vector when the
    container is stateful and from the freshly computed initial states
    otherwise; when the scan primitive returns, [call] returns the whole
    output sequence if [return_sequences] is set and the last output
    otherwise; when stateful it sets [updates] to one pair (persistent
    variable, final state) per position of the final states, and leaves the
    attribute [states] as it was; out of stateful mode the container is not
    changed at all. *)
Theorem C1_call
  (K_rnn : (Value → list Value → result (Value * list Value)) →
           Value → list Value → Value → Value → Value → Value →
           result (Value * Value * list Value))
  (self : RecurrentContainer.t) (x mask : Value) (shape : list Value)
  (len : Value) (init : list Value) (last outs : Value) (finals : list Value) :
  RecurrentContainer.input_spec self = Some shape →
  shape !! 1 = Some len →
  (if truthy (RecurrentContainer.stateful self)
   then RecurrentContainer.states self = Some init
   else RecurrentContainer.get_initial_states self x = Ok init) →
  K_rnn (RecurrentContainer.step self) x init (RecurrentContainer.go_backwards self)
    mask (RecurrentContainer.unroll self) len = Ok (last, outs, finals) →
  (truthy (RecurrentContainer.stateful self) = true → length finals ≤ length init) →
  RecurrentContainer.call K_rnn x mask self
  = (Ok (if truthy (RecurrentContainer.return_sequences self) then outs else last),
     if truthy (RecurrentContainer.stateful self)
     then RecurrentContainer.set_updates (zip init finals) self
     else self)
  ∧ RecurrentContainer.states (RecurrentContainer.call K_rnn x mask self).2
    = RecurrentContainer.states self
  ∧ (truthy (RecurrentContainer.stateful self) = true →
       length (zip init finals) = length finals)
  ∧ ∀ i var new, zip init finals !! i = Some (var, new) ↔
                 init !! i = Some var ∧ finals !! i = Some new.
Proof.
  intros Hspec Hlen Hinit Hscan Hfit.
  assert (Hcall : RecurrentContainer.call K_rnn x mask self
    = (Ok (if truthy (RecurrentContainer.return_sequences self) then outs else last),
       if truthy (RecurrentContainer.stateful self)
       then RecurrentContainer.set_updates (zip init finals) self
       else self)).
  { unfold RecurrentContainer.call, mthen, mget, mlift, mset, mreturn,
      RecurrentContainer.get_input_shape, RecurrentContainer.get_states, index.
    rewrite Hspec. cbn [fst snd].
    destruct (truthy (RecurrentContainer.stateful self)) eqn:Hst.
    - rewrite Hinit, Hlen, Hscan.
      rewrite (record_updates_spec finals 0 _ init []);
        [done|done|done|simpl; by apply Hfit].
    - rewrite Hinit, Hlen, Hscan. done. }
  split; [exact Hcall|]. split.
  - rewrite Hcall. by destruct (truthy (RecurrentContainer.stateful self)).
  - split; [|apply zip_lookup].
    intros Hst. specialize (Hfit Hst). rewrite length_zip_with. lia.
Qed.

Lemma C1_call_witness :
  RecurrentContainer.call one_step_rnn x0 VNone literal_container_popped
  = (Ok (VTensor "add" [VTensor "getitem" [x0; VInt 0];
                        K_variable (VNumpy "array" [VList [VInt 1]])]),
     RecurrentContainer.set_updates
       [(K_variable (VNumpy "array" [VList [VInt 1]]),
         VTensor "add" [VTensor "getitem" [x0; VInt 0];
                        K_variable (VNumpy "array" [VList [VInt 1]])])]
       literal_container_popped).
Proof.
  apply (C1_call one_step_rnn literal_container_popped x0 VNone
           [VNone; VNone; VInt 1] VNone literal_buffers
           (VTensor "add" [VTensor "getitem" [x0; VInt 0];
                           K_variable (VNumpy "array" [VList [VInt 1]])])
           (VTensor "stack"
              [VTensor "add" [VTensor "getitem" [x0; VInt 0];
                              K_variable (VNumpy "array" [VList [VInt 1]])]])
           [VTensor "add" [VTensor "getitem" [x0; VInt 0];
                           K_variable (VNumpy "array" [VList [VInt 1]])]]).
  - reflexivity.
  - reflexivity.
  - reflexivity.
  - reflexivity.
  - intros _. simpl. lia.
Defined.

(** Out of stateful mode, with [return_sequences] off: the initial states
    are computed from the input and the container is left as it is. *)
Example call_not_stateful :
  RecurrentContainer.call one_step_rnn x0 VNone
    (RecurrentContainer.set_input_shape [VInt 2; VInt 3; VInt 1]
       (container_of false [Cell two_arg_function_cell]))
  = (Ok (VTensor "add" [VTensor "getitem" [x0; VInt 0];
                        k_zeros [VInt 2; VInt 1]]),
     RecurrentContainer.set_input_shape [VInt 2; VInt 3; VInt 1]
       (container_of false [Cell two_arg_function_cell])).
Proof. reflexivity. Qed.

(** ** output_shape *)

(** C9: [get_output_shape_for] does not look at its argument: it returns the
    property [output_shape], which is computed from the stored input spec
    and the layer list (and the flag [return_sequences]); two calls with
    different arguments, also on two containers that agree on these, return
    the same. *)
Theorem C9_get_output_shape_for_ignores_argument
  (self self' : RecurrentContainer.t) (shape1 shape2 : list Value) :
  RecurrentContainer.input_spec self' = RecurrentContainer.input_spec self →
  RecurrentContainer.model self' = RecurrentContainer.model self →
  truthy (RecurrentContainer.return_sequences self')
  = truthy (RecurrentContainer.return_sequences self) →
  RecurrentContainer.get_output_shape_for self shape1
  = RecurrentContainer.get_output_shape_for self shape2
  ∧ RecurrentContainer.get_output_shape_for self shape1
    = RecurrentContainer.output_shape self
  ∧ RecurrentContainer.get_output_shape_for self' shape2
    = RecurrentContainer.get_output_shape_for self shape1.
Proof.
  intros Hspec Hmodel Hflag. split; [reflexivity|]. split; [reflexivity|].
  unfold RecurrentContainer.get_output_shape_for, RecurrentContainer.output_shape,
    RecurrentContainer.get_input_shape.
  by rewrite Hspec, Hmodel, Hflag.
Qed.

Lemma C9_get_output_shape_for_ignores_argument_witness :
  RecurrentContainer.get_output_shape_for
    (container_of false [Cell two_arg_function_cell]) [VInt 7; VInt 7]
  = RecurrentContainer.get_output_shape_for
      (container_of false [Cell two_arg_function_cell]) []
  ∧ RecurrentContainer.get_output_shape_for
      (container_of false [Cell two_arg_function_cell]) [VInt 7; VInt 7]
    = RecurrentContainer.output_shape (container_of false [Cell two_arg_function_cell])
  ∧ RecurrentContainer.get_output_shape_for
      (container_of true [Cell two_arg_function_cell]) []
    = RecurrentContainer.get_output_shape_for
        (container_of false [Cell two_arg_function_cell]) [VInt 7; VInt 7].
Proof.
  apply (C9_get_output_shape_for_ignores_argument
           (container_of false [Cell two_arg_function_cell])
           (container_of true [Cell two_arg_function_cell])
           [VInt 7; VInt 7] []); reflexivity.
Defined.

Example output_shape_sample :
  RecurrentContainer.get_output_shape_for
    (container_of false [Cell two_arg_function_cell]) [VInt 7; VInt 7]
  = Ok [VNone; VInt 1].
Proof. reflexivity. Qed.

(** ** get_config, from_config *)

Section ConfigFacts.

Import RecurrentContainer.

Variable Layer_get_config : t → gmap string Value.
Variable Sequential_get_config : list SubUnit → Value.
Variable Sequential_from_config : Value → result (list SubUnit).

Lemma py_dict_items (m : gmap string Value) : py_dict (map_to_list m) = m.
Proof.
  unfold py_dict. rewrite <- (list_to_map_to_list m) at 2.
  symmetry. apply list_to_map_proper; [apply NoDup_fst_map_to_list|].
  symmetry. apply reverse_Permutation.
Qed.

Lemma py_dict_app (l1 l2 : list (string * Value)) :
  py_dict (l1 ++ l2) = py_dict l2 ∪ py_dict l1.
Proof. unfold py_dict. by rewrite reverse_app, list_to_map_app. Qed.

Lemma get_config_union self :
  get_config Layer_get_config Sequential_get_config self
  = own_config Sequential_get_config self ∪ Layer_get_config self.
Proof.
  unfold get_config. by rewrite py_dict_app, !py_dict_items.
Qed.

Lemma own_config_keys self k v :
  own_config Sequential_get_config self !! k = Some v → k = "model" ∨ k ∈ attribs.
Proof.
  unfold own_config, py_dict, attribs. simpl.
  rewrite !lookup_insert_Some, lookup_empty.
  intros H.
  repeat (destruct H as [[<- _]|[_ H]];
          [first [by left | right; repeat constructor]|]).
  discriminate H.
Qed.

Lemma own_config_flags self :
  own_config Sequential_get_config self !! "model" = Some (Sequential_get_config (model self))
  ∧ own_config Sequential_get_config self !! "return_sequences" = Some (return_sequences self)
  ∧ own_config Sequential_get_config self !! "go_backwards" = Some (go_backwards self)
  ∧ own_config Sequential_get_config self !! "stateful" = Some (stateful self)
  ∧ own_config Sequential_get_config self !! "input_length" = Some (input_length self)
  ∧ own_config Sequential_get_config self !! "unroll" = Some (unroll self)
  ∧ own_config Sequential_get_config self !! "weights" = None.
Proof. repeat split. Qed.

Lemma attribs_init_params k : k ∈ attribs → k ∈ init_params.
Proof. unfold attribs, init_params. intros H. apply elem_of_cons. by right. Qed.

(** [from_config] on what [get_config] returns raises TypeError as soon as
    the configuration of the base class has a key that is no parameter of
    [__init__]. *)
Lemma from_config_rejects_base_key self k v :
  Layer_get_config self !! k = Some v →
  k ∉ init_params →
  k ≠ "model" →
  ∃ msg, from_config Sequential_from_config
           (get_config Layer_get_config Sequential_get_config self)
         = Raise (TypeError msg).
Proof.
  intros Hbase Hk Hmodel. rewrite get_config_union.
  destruct (own_config_flags self) as (Hm & _).
  unfold from_config. rewrite (lookup_union_l' _ _ _ (mk_is_Some _ _ Hm)), Hm. simpl.
  unfold construct.
  assert (Hin : (k, v) ∈ filter (λ kv : string * Value, kv.1 ∉ init_params)
                  (map_to_list (delete "model" (own_config Sequential_get_config self ∪ Layer_get_config self)))).
  { apply list_elem_of_filter. split; [done|].
    apply elem_of_map_to_list. apply lookup_delete_Some. split; [done|].
    apply lookup_union_Some_raw. right. split; [|done].
    destruct (own_config Sequential_get_config self !! k) as [v'|] eqn:Hown; [|done].
    apply own_config_keys in Hown as [->|Hattr]; [done|].
    by apply attribs_init_params in Hattr. }
  destruct (filter _ _) as [|[k' v'] l]; [by apply elem_of_nil in Hin|].
  simpl. eauto.
Qed.

(** When every key of the base configuration is a parameter of [__init__]
    and the layer list is rebuilt from its serialized form, [from_config]
    rebuilds a container with the flags of the original, then puts the
    rebuilt layer list into it. *)
Lemma config_round_trip self layers :
  (∀ k, is_Some (Layer_get_config self !! k) → k ∈ init_params) →
  Sequential_from_config (Sequential_get_config (model self)) = Ok layers →
  from_config Sequential_from_config
    (get_config Layer_get_config Sequential_get_config self)
  = Ok (set_model layers
          (__init__ (default VNone (Layer_get_config self !! "weights"))
             (return_sequences self) (go_backwards self) (stateful self)
             (input_length self) (unroll self))).
Proof.
  intros Hbase Hlayers. rewrite get_config_union.
  destruct (own_config_flags self) as (Hm & Hrs & Hgb & Hst & Hil & Hun & Hw).
  unfold from_config. rewrite (lookup_union_l' _ _ _ (mk_is_Some _ _ Hm)), Hm. simpl.
  unfold construct.
  assert (Hnil : filter (λ kv : string * Value, kv.1 ∉ init_params)
                   (map_to_list (delete "model" (own_config Sequential_get_config self ∪ Layer_get_config self)))
                 = []).
  { destruct (filter _ _) as [|[k v] l] eqn:Hf; [done|]. exfalso.
    assert (Hin : (k, v) ∈ filter (λ kv : string * Value, kv.1 ∉ init_params)
                    (map_to_list (delete "model" (own_config Sequential_get_config self ∪ Layer_get_config self))))
      by (rewrite Hf; apply elem_of_cons; by left).
    apply list_elem_of_filter in Hin as [Hno Hin]. apply Hno. simpl.
    apply elem_of_map_to_list, lookup_delete_Some in Hin as [Hne Hin].
    apply lookup_union_Some_raw in Hin as [Hown|[_ Hb]].
    - apply own_config_keys in Hown as [->|Hattr]; [done|].
      by apply attribs_init_params.
    - apply Hbase. by rewrite Hb. }
  rewrite Hnil.
  rewrite !lookup_delete_ne by done.
  rewrite (lookup_union_l' _ _ "return_sequences" (mk_is_Some _ _ Hrs)), Hrs.
  rewrite (lookup_union_l' _ _ "go_backwards" (mk_is_Some _ _ Hgb)), Hgb.
  rewrite (lookup_union_l' _ _ "stateful" (mk_is_Some _ _ Hst)), Hst.
  rewrite (lookup_union_l' _ _ "input_length" (mk_is_Some _ _ Hil)), Hil.
  rewrite (lookup_union_l' _ _ "unroll" (mk_is_Some _ _ Hun)), Hun.
  rewrite (lookup_union_r _ _ "weights" Hw).
  simpl. rewrite Hlayers. reflexivity.
Qed.

End ConfigFacts.

(** C6 at a fresh container under Keras, whose [Layer.get_config] returns
    the keys [name] and [trainable]: [from_config] applied to the result of
    [get_config] raises TypeError, because [__init__] accepts neither
    key. *)
Theorem C6_from_config_of_get_config_raises :
  RecurrentContainer.from_config rebuild_layers
    (RecurrentContainer.get_config keras_base_config count_layers
       (RecurrentContainer.__init__ VNone (VBool true) (VBool false) (VBool false)
          (VInt 3) (VBool false)))
  = Raise (TypeError "__init__() got an unexpected keyword argument 'name'").
Proof. vm_compute. reflexivity. Qed.

(** With a base configuration that is empty the flags come back, and the
    layer list is what the deserialization of Sequential rebuilds. *)
Example config_round_trip_sample :
  RecurrentContainer.from_config rebuild_layers
    (RecurrentContainer.get_config empty_base_config count_layers
       (RecurrentContainer.set_model [Plain identity_layer]
          (RecurrentContainer.__init__ VNone (VBool true) (VBool false) (VBool false)
             (VInt 3) (VBool false))))
  = Ok (RecurrentContainer.set_model [Plain identity_layer]
          (RecurrentContainer.__init__ VNone (VBool true) (VBool false) (VBool false)
             (VInt 3) (VBool false))).
Proof. vm_compute. reflexivity. Qed.

(** * Further properties of the code *)

(** ** RNNCell: step dispatch for methods, the weights property *)

(** X1: when [step] is a method of the class, [getargspec] counts [self],
    so [_step] keeps one argument more than the method declares beside
    [self]: the user's step is reached exactly when it declares all the
    arguments [_step] has available (input, state, the parameter list, and
    the constants of a Cell that has them), and is then called with all of
    them; with any other number of declared arguments the call raises
    TypeError. *)
Theorem X1_step_method_dispatch (c : RNNCell.t) (x : Value) (sts : list Value) :
  RNNCell.step_kind c = BoundMethod →
  (length (RNNCell.step_params c) = length (available_args c x sts) →
     RNNCell._step c x sts = RNNCell.step c (available_args c x sts))
  ∧ (length (RNNCell.step_params c) ≠ length (available_args c x sts) →
     ∃ msg, RNNCell._step c x sts = Raise (TypeError msg)).
Proof.
  intros Hkind.
  assert (Hargs : RNNCell._step_args c x sts
                  = take (S (length (RNNCell.step_params c))) (available_args c x sts)).
  { rewrite _step_args_take. unfold RNNCell.getargspec_args. by rewrite Hkind. }
  unfold RNNCell._step. rewrite Hargs. split.
  - intros Hn. rewrite take_ge by lia. by apply call_step_exact.
  - intros Hn. unfold RNNCell.call_step.
    rewrite decide_False; [eauto|]. rewrite length_take. lia.
Qed.

Lemma X1_step_method_dispatch_witness :
  RNNCell._step three_arg_method_cell x0 [h0]
  = RNNCell.step three_arg_method_cell [x0; VList [h0]; VList []].
Proof.
  apply (X1_step_method_dispatch three_arg_method_cell x0 [h0]); reflexivity.
Defined.

Lemma filter_flag_partition (ws : list weight) :
  filter (λ w, truthy (trainable w) = true) ws
  ++ filter (λ w, truthy (trainable w) = false) ws ≡ₚ ws.
Proof.
  induction ws as [|w ws IH]; [done|].
  rewrite !filter_cons. destruct (truthy (trainable w)) eqn:E.
  - rewrite decide_True, decide_False by done. simpl. by rewrite IH.
  - rewrite decide_False, decide_True by done.
    rewrite <- Permutation_middle. by rewrite IH.
Qed.

Lemma filter_flag_all (ws : list weight) :
  Forall (λ w, truthy (trainable w) = true) ws →
  filter (λ w, truthy (trainable w) = true) ws = ws
  ∧ filter (λ w, truthy (trainable w) = false) ws = [].
Proof.
  induction 1 as [|w ws Hw _ [IH1 IH2]]; [done|].
  rewrite !filter_cons, decide_True, decide_False by congruence.
  by rewrite IH1, IH2.
Qed.

(** X2: reading [cell.weights] after assigning a list to it gives the
    tensors of the trainable entries, in their order, followed by those of
    the non-trainable entries: as many tensors as entries and a permutation
    of the assigned tensors, but in the assigned order only when no
    non-trainable entry comes before a trainable one (in particular when
    all entries are trainable).  This is the list [_step] passes to the
    user's step. *)
Theorem X2_weights_read_after_assignment (ws : list WeightEntry) (st : RNNCell.world) :
  let c := RNNCell.self (RNNCell.set_weights ws st) in
  let ws' := as_weight <$> ws in
  RNNCell.weights c
  = (value <$> filter (λ w, truthy (trainable w) = true) ws')
    ++ (value <$> filter (λ w, truthy (trainable w) = false) ws')
  ∧ RNNCell.weights c ≡ₚ value <$> ws'
  ∧ length (RNNCell.weights c) = length ws
  ∧ (Forall (λ w, truthy (trainable w) = true) ws' →
       RNNCell.weights c = value <$> ws').
Proof.
  intros c ws'.
  destruct (set_weights_spec ws st) as (Ht & Hn & _ & _). fold c ws' in Ht, Hn.
  assert (Hw : RNNCell.weights c
    = (value <$> filter (λ w, truthy (trainable w) = true) ws')
      ++ (value <$> filter (λ w, truthy (trainable w) = false) ws')).
  { unfold RNNCell.weights. by rewrite Ht, Hn. }
  assert (Hp : RNNCell.weights c ≡ₚ value <$> ws').
  { rewrite Hw, <- fmap_app. by rewrite filter_flag_partition. }
  split; [done|]. split; [done|]. split.
  - rewrite Hp. unfold ws'. by rewrite !length_fmap.
  - intros Hall. destruct (filter_flag_all ws' Hall) as [H1 H2].
    rewrite Hw, H1, H2. by rewrite app_nil_r.
Qed.

(** The assigned order is not kept: [W] (non-trainable) then [U] is read
    back as [U] then [W]. *)
Lemma X2_weights_read_after_assignment_witness :
  RNNCell.weights (RNNCell.self (RNNCell.set_weights
                                   [Unwrapped (VTensor "W" []); Unwrapped (VTensor "U" [])]
                                   sample_world))
  = [VTensor "W" []; VTensor "U" []]
  ∧ RNNCell.weights (RNNCell.self (RNNCell.set_weights sample_weights sample_world))
    = [VTensor "U" []; VTensor "W" []].
Proof.
  split; [|reflexivity].
  apply (X2_weights_read_after_assignment
           [Unwrapped (VTensor "W" []); Unwrapped (VTensor "U" [])] sample_world).
  repeat constructor.
Defined.

(** X3: assigning to [cell.weights] the list just read from it makes every
    weight trainable and drops every regularizer: the tensors all land in
    [trainable_weights], in the order read, [non_trainable_weights] and
    [regularizers] become empty, and no regularizer is bound anew.  (The
    stored weights are tensors or other values that [weight] keeps as they
    are.) *)
Theorem X3_weights_assign_what_was_read (st : RNNCell.world) :
  Forall (λ v, weight_value v = v) (RNNCell.weights (RNNCell.self st)) →
  let st' := RNNCell.set_weights (Unwrapped <$> RNNCell.weights (RNNCell.self st)) st in
  RNNCell.trainable_weights (RNNCell.self st') = RNNCell.weights (RNNCell.self st)
  ∧ RNNCell.non_trainable_weights (RNNCell.self st') = []
  ∧ RNNCell.regularizers (RNNCell.self st') = []
  ∧ RNNCell.params st' = RNNCell.params st.
Proof.
  intros Hfix st'.
  destruct (set_weights_spec (Unwrapped <$> RNNCell.weights (RNNCell.self st)) st)
    as (Ht & Hn & Hr & Hp).
  fold st' in Ht, Hn, Hr, Hp. rewrite Ht, Hn, Hr, Hp. clear Ht Hn Hr Hp st'.
  induction Hfix as [|v l Hv _ IH]; [done|].
  destruct IH as (IH1 & IH2 & IH3 & IH4).
  rewrite !fmap_cons. simpl as_weight.
  rewrite !filter_cons, decide_True, decide_False by done.
  rewrite fmap_cons. simpl. rewrite Hv, IH1, IH2. split; [done|]. split; [done|].
  split; [exact IH3|]. exact IH4.
Qed.

Lemma X3_weights_assign_what_was_read_witness :
  RNNCell.trainable_weights
    (RNNCell.self (RNNCell.set_weights
                     (Unwrapped <$> RNNCell.weights weighted_cell)
                     {| RNNCell.self := weighted_cell; RNNCell.params := ∅ |}))
  = [VTensor "U" []; VTensor "W" []]
  ∧ RNNCell.non_trainable_weights
      (RNNCell.self (RNNCell.set_weights
                       (Unwrapped <$> RNNCell.weights weighted_cell)
                       {| RNNCell.self := weighted_cell; RNNCell.params := ∅ |}))
    = []
  ∧ RNNCell.regularizers
      (RNNCell.self (RNNCell.set_weights
                       (Unwrapped <$> RNNCell.weights weighted_cell)
                       {| RNNCell.self := weighted_cell; RNNCell.params := ∅ |}))
    = []
  ∧ RNNCell.params (RNNCell.set_weights
                      (Unwrapped <$> RNNCell.weights weighted_cell)
                      {| RNNCell.self := weighted_cell; RNNCell.params := ∅ |})
    = ∅.
Proof.
  apply (X3_weights_assign_what_was_read
           {| RNNCell.self := weighted_cell; RNNCell.params := ∅ |}).
  repeat constructor.
Defined.

Lemma last_binding_app ws1 ws2 k :
  last_binding (ws1 ++ ws2) k
  = match last_binding ws2 k with
    | Some v => Some v
    | None => last_binding ws1 k
    end.
Proof.
  induction ws1 as [|w ws1 IH]; simpl.
  - by destruct (last_binding ws2 k).
  - rewrite IH. by destruct (last_binding ws2 k).
Qed.

Lemma last_binding_absent ws k :
  Forall (λ w, ∀ r', regularizer w = Some r' → reg_id r' ≠ k) ws →
  last_binding ws k = None.
Proof.
  induction 1 as [|w ws Hw _ IH]; simpl; [done|].
  rewrite IH. destruct (regularizer w) as [r'|]; [|done].
  rewrite decide_False; [done|]. by apply Hw.
Qed.

(** X4: a regularizer object carried by two entries of the assigned list is
    collected twice, and is bound by [set_param] to the tensor of the later
    entry only: the binding to the tensor of the earlier entry is
    overwritten. *)
Theorem X4_shared_regularizer_bound_to_last (ws : list WeightEntry) (st : RNNCell.world)
  (l1 l2 l3 : list weight) (w1 w2 : weight) (r : Regularizer) :
  as_weight <$> ws = l1 ++ w1 :: l2 ++ w2 :: l3 →
  regularizer w1 = Some r →
  regularizer w2 = Some r →
  Forall (λ w, ∀ r', regularizer w = Some r' → reg_id r' ≠ reg_id r) l3 →
  RNNCell.params (RNNCell.set_weights ws st) !! reg_id r = Some (value w2)
  ∧ RNNCell.regularizers (RNNCell.self (RNNCell.set_weights ws st))
    = omap regularizer l1 ++ r :: omap regularizer l2 ++ r :: omap regularizer l3.
Proof.
  intros Hws Hr1 Hr2 Hl3.
  destruct (set_weights_spec ws st) as (_ & _ & Hr & Hp).
  simpl in Hr, Hp. rewrite Hr, Hp, Hws. split.
  - rewrite bind_regularizers_lookup.
    replace (l1 ++ w1 :: l2 ++ w2 :: l3) with ((l1 ++ w1 :: l2) ++ w2 :: l3)
      by (by rewrite <- app_assoc).
    rewrite last_binding_app. simpl.
    rewrite (last_binding_absent l3 (reg_id r) Hl3), Hr2.
    by rewrite decide_True.
  - rewrite omap_app. simpl. rewrite Hr1. rewrite omap_app. simpl. by rewrite Hr2.
Qed.

Lemma X4_shared_regularizer_bound_to_last_witness :
  RNNCell.params (RNNCell.set_weights shared_regularizer_weights sample_world)
    !! reg_id l2_W = Some (VTensor "U" [])
  ∧ RNNCell.regularizers
      (RNNCell.self (RNNCell.set_weights shared_regularizer_weights sample_world))
    = [l2_W; l2_W].
Proof.
  apply (X4_shared_regularizer_bound_to_last shared_regularizer_weights sample_world
           [] [] []
           {| value := VTensor "W" []; regularizer := Some l2_W; trainable := VBool true |}
           {| value := VTensor "U" []; regularizer := Some l2_W; trainable := VBool true |}
           l2_W); [reflexivity|reflexivity|reflexivity|constructor].
Defined.

(** ** RecurrentContainer.step and get_initial_states *)

(** X5: on a pipeline of stateless layers only, [step] threads the input
    through the layers in order and returns the state vector untouched,
    whatever its length. *)
Theorem X5_step_stateless_pipeline (self : RecurrentContainer.t) (ls : list Layer)
  (x : Value) (sts : list Value) :
  RecurrentContainer.model self = Plain <$> ls →
  RecurrentContainer.step self x sts
  = Ok (foldl (λ y l, layer_call l y) x ls, sts).
Proof.
  intros Hmodel. unfold RecurrentContainer.step. rewrite Hmodel.
  enough (∀ y i, RecurrentContainer.step_loop (Plain <$> ls) (y, sts, i)
                 = Ok (foldl (λ y l, layer_call l y) y ls, sts, i)) as H
    by (by rewrite H).
  clear Hmodel. induction ls as [|l ls IH]; intros y i; simpl; [done|]. apply IH.
Qed.

Lemma X5_step_stateless_pipeline_witness :
  RecurrentContainer.step (container_of false [Plain identity_layer; Plain identity_layer])
    x0 [h0; h1]
  = Ok (x0, [h0; h1]).
Proof.
  apply (X5_step_stateless_pipeline
           (container_of false [Plain identity_layer; Plain identity_layer])
           [identity_layer; identity_layer] x0 [h0; h1]).
  reflexivity.
Defined.

Lemma layer_initial_states_length c input bs il :
  Forall resolves_to_one (RNNCell.states c) →
  length (RecurrentContainer.layer_initial_states c input bs il)
  = length (RNNCell.states c).
Proof.
  rewrite layer_initial_states_concat.
  induction 1 as [|spec specs Hspec _ IH]; simpl; [done|].
  rewrite length_app, IH. f_equal.
  destruct spec as [f|v]; simpl in *.
  - destruct (f input) eqn:E; try done. by destruct (Hspec input items).
  - destruct v; done.
Qed.

Lemma initial_states_loop_length layers : ∀ input bs il acc init,
  Forall resolves_to_one (declared_specs layers) →
  RecurrentContainer.initial_states_loop layers input bs il acc = Ok init →
  length init = length acc + declared_states layers.
Proof.
  induction layers as [|[c|p] layers IH]; intros input bs il acc init Hall; simpl.
  - intros [= <-]. lia.
  - simpl in Hall. apply Forall_app in Hall as [Hc Hrest].
    destruct (RNNCell._step c input _) as [[input' s']|e]; simpl; [|done].
    intros Hloop. rewrite (IH _ _ _ _ _ Hrest Hloop), length_app.
    rewrite layer_initial_states_length by done. lia.
  - apply IH. exact Hall.
Qed.

(** X6: when [get_initial_states] returns and no state specification of the
    pipeline is a Python list or a callable returning a list, the initial
    state vector has exactly one entry per declared state: its length is the
    sum of [len(layer.states)] over the Cells, which is the layout [step]
    slices by. *)
Theorem X6_initial_states_length (self : RecurrentContainer.t) (x : Value)
  (init : list Value) :
  Forall resolves_to_one (declared_specs (RecurrentContainer.model self)) →
  RecurrentContainer.get_initial_states self x = Ok init →
  length init = declared_states (RecurrentContainer.model self).
Proof.
  intros Hall. unfold RecurrentContainer.get_initial_states.
  destruct (RecurrentContainer.resolved_sizes self x) as [[bs il]|e]; simpl; [|done].
  intros Hloop. by rewrite (initial_states_loop_length _ _ _ _ _ _ Hall Hloop).
Qed.

Lemma X6_initial_states_length_witness :
  RecurrentContainer.get_initial_states
    (RecurrentContainer.set_input_shape [VInt 5; VInt 7; VInt 1]
       (container_of false [Cell sized_cell; Plain identity_layer; Cell literal_cell])) x0
  = Ok [k_zeros [VInt 5; VInt 7; VInt 4]; K_variable (VNumpy "array" [VList [VInt 1]])]
  ∧ length [k_zeros [VInt 5; VInt 7; VInt 4]; K_variable (VNumpy "array" [VList [VInt 1]])]
    = declared_states [Cell sized_cell; Plain identity_layer; Cell literal_cell].
Proof.
  split; [reflexivity|].
  apply (X6_initial_states_length
           (RecurrentContainer.set_input_shape [VInt 5; VInt 7; VInt 1]
              (container_of false [Cell sized_cell; Plain identity_layer; Cell literal_cell]))
           x0).
  - repeat constructor.
  - reflexivity.
Defined.

Lemma resolve_static_ints dims bs il :
  is_int bs = true → is_int il = true →
  RecurrentContainer.resolve_static dims bs il = Ok (substituted dims bs il).
Proof.
  intros Hb Hn. induction dims as [|d dims IH]; simpl; [done|].
  rewrite Hb, Hn, IH. by destruct (is_batch_sentinel d), (is_length_sentinel d).
Qed.

(** X7: with a batch size and an input length that are integers, both modes
    resolve a shape tuple to the same dimensions: [reset_states] builds a
    variable holding zeros of the shape of which [_get_state_from_info]
    builds a zero tensor, every sentinel replaced and every other dimension
    kept. *)
Theorem X7_modes_agree_on_shape_tuples (dims : list Value) (input bs il : Value) :
  is_int bs = true →
  is_int il = true →
  RecurrentContainer.static_state (SValue (VTuple dims)) bs il
  = Ok (K_variable (np_zeros (substituted dims bs il)))
  ∧ RecurrentContainer._get_state_from_info (SValue (VTuple dims)) input bs il
    = k_zeros (substituted dims bs il)
  ∧ length (substituted dims bs il) = length dims
  ∧ ∀ i d, dims !! i = Some d → is_batch_sentinel d = false →
           is_length_sentinel d = false → substituted dims bs il !! i = Some d.
Proof.
  intros Hb Hn. split; [|split; [reflexivity|split]].
  - simpl. by rewrite (resolve_static_ints dims bs il Hb Hn).
  - unfold substituted. by rewrite length_map.
  - intros i d Hd Hnb Hnl. unfold substituted.
    rewrite list_lookup_fmap, Hd. simpl. by rewrite Hnb, Hnl.
Qed.

Lemma X7_modes_agree_on_shape_tuples_witness :
  RecurrentContainer.static_state
    (SValue (VTuple [VStr "batch_size"; VStr "input_length"; VInt 4])) (VInt 5) (VInt 7)
  = Ok (K_variable (np_zeros [VInt 5; VInt 7; VInt 4]))
  ∧ RecurrentContainer._get_state_from_info
      (SValue (VTuple [VStr "batch_size"; VStr "input_length"; VInt 4])) x0 (VInt 5) (VInt 7)
    = k_zeros [VInt 5; VInt 7; VInt 4].
Proof.
  pose proof (X7_modes_agree_on_shape_tuples
                [VStr "batch_size"; VStr "input_length"; VInt 4] x0 (VInt 5) (VInt 7)
                eq_refl eq_refl) as (H1 & H2 & _).
  split; [exact H1|exact H2].
Defined.

(** X8: a shape given as a Python list, not a tuple, is a shape for
    [reset_states] only.  In persistent mode it gives one variable of zeros
    of the resolved shape; in non-persistent mode [_get_state_from_info]
    passes the list through and [get_initial_states] splices its items, the
    dimensions themselves with their sentinels, into the initial states, one
    state per dimension. *)
Theorem X8_list_shape_differs_between_modes (self : RecurrentContainer.t)
  (x bs il : Value) (rest dims : list Value) (c : RNNCell.t)
  (y : Value) (new : list Value) :
  RecurrentContainer.input_spec self = Some (bs :: il :: rest) →
  is_int bs = true →
  is_int il = true →
  RecurrentContainer.model self = [Cell c] →
  RNNCell.states c = [SValue (VList dims)] →
  RNNCell._step c (RecurrentContainer._get_first_timestep x) dims = Ok (y, new) →
  RecurrentContainer.get_initial_states self x = Ok dims
  ∧ RecurrentContainer.reset_states self
    = (Ok tt,
       RecurrentContainer.set_states [K_variable (np_zeros (substituted dims bs il))] self).
Proof.
  intros Hspec Hb Hn Hmodel Hstates Hstep. split.
  - rewrite (get_initial_states_first_cell self x bs il rest c [] Hspec Hmodel).
    assert (Hlis : ∀ b' n', RecurrentContainer.layer_initial_states c
                     (RecurrentContainer._get_first_timestep x) b' n' = dims).
    { intros. unfold RecurrentContainer.layer_initial_states. by rewrite Hstates. }
    simpl. rewrite !Hlis, Hstep. reflexivity.
  - unfold RecurrentContainer.reset_states, mthen, mget, mlift, mset,
      RecurrentContainer.get_input_shape.
    rewrite Hspec, Hmodel. simpl. rewrite Hstates. simpl.
    by rewrite (resolve_static_ints dims bs il Hb Hn).
Qed.

Lemma X8_list_shape_differs_between_modes_witness :
  RecurrentContainer.get_initial_states
    (RecurrentContainer.set_input_shape [VInt 5; VInt 7; VInt 1]
       (container_of true [Cell list_shape_cell])) x0
  = Ok [VInt (-1); VInt 4]
  ∧ RecurrentContainer.reset_states
      (RecurrentContainer.set_input_shape [VInt 5; VInt 7; VInt 1]
         (container_of true [Cell list_shape_cell]))
    = (Ok tt,
       RecurrentContainer.set_states [K_variable (np_zeros [VInt 5; VInt 4])]
         (RecurrentContainer.set_input_shape [VInt 5; VInt 7; VInt 1]
            (container_of true [Cell list_shape_cell]))).
Proof.
  apply (X8_list_shape_differs_between_modes
           (RecurrentContainer.set_input_shape [VInt 5; VInt 7; VInt 1]
              (container_of true [Cell list_shape_cell]))
           x0 (VInt 5) (VInt 7) [VInt 1] [VInt (-1); VInt 4] list_shape_cell
           (RecurrentContainer._get_first_timestep x0)
           [RecurrentContainer._get_first_timestep x0]); reflexivity.
Defined.

(** ** reset_states, add, pop *)

Lemma reset_states_frame s :
  RecurrentContainer.model (RecurrentContainer.reset_states s).2 = RecurrentContainer.model s
  ∧ RecurrentContainer.input_spec (RecurrentContainer.reset_states s).2
    = RecurrentContainer.input_spec s
  ∧ RecurrentContainer.stateful (RecurrentContainer.reset_states s).2
    = RecurrentContainer.stateful s
  ∧ RecurrentContainer.input_length (RecurrentContainer.reset_states s).2
    = RecurrentContainer.input_length s
  ∧ RecurrentContainer.updates (RecurrentContainer.reset_states s).2
    = RecurrentContainer.updates s.
Proof.
  unfold RecurrentContainer.reset_states, mthen, mget, mlift, mset,
    RecurrentContainer.get_input_shape.
  destruct (RecurrentContainer.input_spec s) as [[|b [|n rest]]|] eqn:Hspec;
    simpl; try by rewrite ?Hspec.
  destruct (RecurrentContainer.reset_layers _ b n []); simpl; by rewrite ?Hspec.
Qed.




(** A stateful container rejects a Cell whose state is a callable, and
    keeps it in the list all the same. *)
Example add_rejected_cell_stays :
  RecurrentContainer.add (Cell callable_cell) literal_container_popped
  = (Raise (AssertionError "Stateful RNNs require states with static shapes"),
     RecurrentContainer.set_states literal_buffers
       (container_of true [Cell literal_cell; Cell callable_cell])).
Proof. reflexivity. Qed.

(** The first [add] out of stateful mode, for a layer with an input shape. *)
Lemma add_first_layer (layer : SubUnit) (self : RecurrentContainer.t)
  (b : Value) (rest : list Value) :
  truthy (RecurrentContainer.stateful self) = false →
  RecurrentContainer.model self = [] →
  subunit_input_shape layer = Ok (b :: rest) →
  RecurrentContainer.add layer self
  = (Ok tt,
     RecurrentContainer.set_input_shape
       (b :: RecurrentContainer.input_length self :: rest)
       (RecurrentContainer.set_model [layer] self)).
Proof.
  intros Hst Hnil Hshape.
  unfold RecurrentContainer.add, mthen, mset, mget, mreturn, mlift, Sequential_add.
  simpl. rewrite Hnil, Hst. simpl. by rewrite Hshape.
Qed.

(** A later [add] out of stateful mode. *)
Lemma add_further_layer (layer : SubUnit) (self : RecurrentContainer.t) :
  truthy (RecurrentContainer.stateful self) = false →
  RecurrentContainer.model self ≠ [] →
  RecurrentContainer.add layer self
  = (Ok tt,
     RecurrentContainer.set_model (RecurrentContainer.model self ++ [layer]) self).
Proof.
  intros Hst Hne.
  unfold RecurrentContainer.add, mthen, mset, mget, mreturn, mlift, Sequential_add.
  simpl. rewrite Hst.
  rewrite decide_False; [done|].
  rewrite length_app. simpl. destruct (RecurrentContainer.model self); [done|].
  simpl. lia.
Qed.



Lemma add_stateful_inv layer s s1 :
  truthy (RecurrentContainer.stateful s) = true →
  RecurrentContainer.add layer s = (Ok tt, s1) →
  ∃ s', RecurrentContainer.model s' = RecurrentContainer.model s ++ [layer]
        ∧ RecurrentContainer.reset_states s' = (Ok tt, s1).
Proof.
  intros Hst.
  unfold RecurrentContainer.add, mthen, mset, mget, mreturn, mlift, Sequential_add.
  simpl. rewrite Hst.
  destruct (decide (length (RecurrentContainer.model s ++ [layer]) = 1)) as [Hone|Hmany].
  - destruct (subunit_input_shape layer) as [shape|e1]; simpl; [|done].
    destruct (index shape 0) as [b|e2]; simpl; [|done].
    intros H. eexists. split; [|exact H]. reflexivity.
  - intros H. eexists. split; [|exact H]. reflexivity.
Qed.

Lemma reset_states_ok_buffers s s1 :
  RecurrentContainer.reset_states s = (Ok tt, s1) →
  RecurrentContainer.model s1 = RecurrentContainer.model s
  ∧ ∃ bufs, RecurrentContainer.states s1 = Some bufs
            ∧ length bufs = declared_states (RecurrentContainer.model s).
Proof.
  intros H. apply reset_states_ok_inv in H as (b & n & rest & bufs & _ & -> & Hbufs).
  split; [done|]. exists bufs. split; [done|].
  rewrite <- declared_specs_length. symmetry.
  eapply Forall2_length. by apply reset_layers_ok.
Qed.

(** X12: in stateful mode every [add] and every [pop] that returns leaves
    a persistent state vector with exactly one buffer per state the Cells
    of the new layer list declare; so the composite step, run on it with
    Cells that return as many states as they declare, returns a vector of
    the same length. *)
Theorem X12_stateful_vector_matches_pipeline (self self1 : RecurrentContainer.t) :
  truthy (RecurrentContainer.stateful self) = true →
  ((∃ layer, RecurrentContainer.add layer self = (Ok tt, self1))
   ∨ RecurrentContainer.pop self = (Ok tt, self1)) →
  ∃ bufs,
    RecurrentContainer.states self1 = Some bufs
    ∧ length bufs = declared_states (RecurrentContainer.model self1)
    ∧ ∀ x, returns_declared (RecurrentContainer.model self1) (x, bufs, 0) →
        ∃ y sts', RecurrentContainer.step self1 x bufs = Ok (y, sts')
                  ∧ length sts' = length bufs.
Proof.
  intros Hst Hop.
  assert (∃ s', RecurrentContainer.reset_states s' = (Ok tt, self1)) as [s' Hreset].
  { destruct Hop as [[layer Hadd]|Hpop].
    - destruct (add_stateful_inv _ _ _ Hst Hadd) as (s' & _ & H). eauto.
    - destruct (pop_inv _ _ Hpop) as (_ & _ & H). eauto. }
  destruct (reset_states_ok_buffers _ _ Hreset) as (Hmodel & bufs & Hbufs & Hlen).
  exists bufs. rewrite Hmodel. split; [done|]. split; [done|].
  intros x Hret. rewrite <- Hmodel in Hret.
  destruct (step_returns_length self1 x bufs Hret) as (y & sts' & Hstep & Hl).
  exists y, sts'. split; [done|]. rewrite Hmodel in Hl. lia.
Qed.

Lemma X12_stateful_vector_matches_pipeline_witness :
  ∃ bufs,
    RecurrentContainer.states literal_container_added = Some bufs
    ∧ length bufs = declared_states (RecurrentContainer.model literal_container_added)
    ∧ ∀ x, returns_declared (RecurrentContainer.model literal_container_added) (x, bufs, 0) →
        ∃ y sts', RecurrentContainer.step literal_container_added x bufs = Ok (y, sts')
                  ∧ length sts' = length bufs.
Proof.
  apply (X12_stateful_vector_matches_pipeline literal_container literal_container_added).
  - reflexivity.
  - left. exists (Plain identity_layer). reflexivity.
Defined.

(** X13: [pop] on a container without layers raises and leaves it as it
    was; out of stateful mode [pop] on a container with layers removes the
    last one and changes nothing else.  In no case does [pop] touch the
    input spec: it stays when the last layer goes, and only the next [add]
    into the emptied container derives it anew, from the layer added then. *)
Theorem X13_pop_keeps_input_spec (self : RecurrentContainer.t) (layer : SubUnit)
  (b : Value) (rest : list Value) :
  subunit_input_shape layer = Ok (b :: rest) →
  (RecurrentContainer.model self = [] →
     ∃ e, RecurrentContainer.pop self = (Raise e, self))
  ∧ (RecurrentContainer.model self ≠ [] →
     truthy (RecurrentContainer.stateful self) = false →
     RecurrentContainer.pop self
     = (Ok tt,
        RecurrentContainer.set_model (removelast (RecurrentContainer.model self)) self))
  ∧ RecurrentContainer.input_spec (RecurrentContainer.pop self).2
    = RecurrentContainer.input_spec self
  ∧ (length (RecurrentContainer.model self) = 1 →
     truthy (RecurrentContainer.stateful self) = false →
     RecurrentContainer.add layer (RecurrentContainer.pop self).2
     = (Ok tt,
        RecurrentContainer.set_input_shape
          (b :: RecurrentContainer.input_length self :: rest)
          (RecurrentContainer.set_model [layer] self))).
Proof.
  intros Hshape.
  assert (Hpop : RecurrentContainer.model self ≠ [] →
     truthy (RecurrentContainer.stateful self) = false →
     RecurrentContainer.pop self
     = (Ok tt,
        RecurrentContainer.set_model (removelast (RecurrentContainer.model self)) self)).
  { intros Hne Hst.
    unfold RecurrentContainer.pop, mthen, mset, mget, mreturn, mlift, Sequential_pop.
    destruct (RecurrentContainer.model self) as [|u l] eqn:Hm; [done|].
    cbn -[removelast]. by rewrite Hst. }
  split; [|split; [exact Hpop|split]].
  - intros Hnil.
    unfold RecurrentContainer.pop, mthen, mset, mget, mreturn, mlift, Sequential_pop.
    rewrite Hnil. eauto.
  - unfold RecurrentContainer.pop, mthen, mset, mget, mreturn, mlift, Sequential_pop.
    destruct (RecurrentContainer.model self) as [|u l] eqn:Hm; [done|].
    cbn -[removelast RecurrentContainer.reset_states].
    destruct (truthy (RecurrentContainer.stateful self)); [|done].
    match goal with |- context [RecurrentContainer.reset_states ?s] =>
      destruct (reset_states_frame s) as (_ & -> & _) end. done.
  - intros Hone Hst.
    destruct (RecurrentContainer.model self) as [|u [|u' l]] eqn:Hm; try done.
    rewrite Hpop by done. simpl removelast. cbn [snd].
    by rewrite (add_first_layer layer (RecurrentContainer.set_model [] self) b rest).
Qed.

Lemma X13_pop_keeps_input_spec_witness :
  RecurrentContainer.input_spec
    (RecurrentContainer.pop (container_of false [Plain identity_layer])).2
  = Some [VNone; VNone; VInt 1]
  ∧ RecurrentContainer.add (Cell two_arg_function_cell)
      (RecurrentContainer.pop (container_of false [Plain identity_layer])).2
    = (Ok tt,
       RecurrentContainer.set_input_shape [VNone; VNone; VInt 1]
         (RecurrentContainer.set_model [Cell two_arg_function_cell]
            (container_of false [Plain identity_layer]))).
Proof.
  pose proof (X13_pop_keeps_input_spec (container_of false [Plain identity_layer])
                (Cell two_arg_function_cell) VNone [VInt 1] eq_refl)
    as (_ & _ & Hspec & Hadd).
  split; [exact Hspec|]. apply Hadd; reflexivity.
Defined.

(** ** call *)

Lemma record_updates_frame sts : ∀ i s,
  (RecurrentContainer.record_updates sts i s).2 = s
  ∨ ∃ ups, (RecurrentContainer.record_updates sts i s).2
           = RecurrentContainer.set_updates ups s.
Proof.
  induction sts as [|st sts IH]; intros i s; [by left|].
  cbn [RecurrentContainer.record_updates].
  unfold mthen, mget, mlift, mset, RecurrentContainer.get_updates,
    RecurrentContainer.get_states, index.
  destruct (RecurrentContainer.updates s) as [ups|]; [|by left].
  destruct (RecurrentContainer.states s) as [own|]; [|by left]. cbn [fst snd].
  destruct (own !! i) as [var|]; [|by left].
  destruct (IH (S i) (RecurrentContainer.set_updates (ups ++ [(var, st)]) s))
    as [H|[ups' H]].
  - right. exists (ups ++ [(var, st)]).
    destruct (RecurrentContainer.record_updates sts (S i) _) as [[u|e] s']; simpl in *;
      by rewrite H.
  - right. exists ups'.
    destruct (RecurrentContainer.record_updates sts (S i) _) as [[u|e] s']; simpl in *;
      by rewrite H.
Qed.

(** X14: whatever [call] returns or raises, it changes no attribute of the
    container other than [updates]; out of stateful mode it changes none at
    all.  In particular a forward pass never assigns [states]: the
    persistent variables are only paired with their new values in
    [updates]. *)
Theorem X14_call_changes_updates_only
  (K_rnn : (Value → list Value → result (Value * list Value)) →
           Value → list Value → Value → Value → Value → Value →
           result (Value * Value * list Value))
  (self : RecurrentContainer.t) (x mask : Value) :
  ((RecurrentContainer.call K_rnn x mask self).2 = self
   ∨ ∃ ups, (RecurrentContainer.call K_rnn x mask self).2
            = RecurrentContainer.set_updates ups self)
  ∧ RecurrentContainer.states (RecurrentContainer.call K_rnn x mask self).2
    = RecurrentContainer.states self
  ∧ RecurrentContainer.model (RecurrentContainer.call K_rnn x mask self).2
    = RecurrentContainer.model self
  ∧ (truthy (RecurrentContainer.stateful self) = false →
       (RecurrentContainer.call K_rnn x mask self).2 = self).
Proof.
  assert (Hcases :
    ((RecurrentContainer.call K_rnn x mask self).2 = self
     ∨ ∃ ups, (RecurrentContainer.call K_rnn x mask self).2
              = RecurrentContainer.set_updates ups self)
    ∧ (truthy (RecurrentContainer.stateful self) = false →
         (RecurrentContainer.call K_rnn x mask self).2 = self)).
  { unfold RecurrentContainer.call, mthen, mget, mlift, mset, mreturn.
    destruct (RecurrentContainer.get_input_shape self) as [shape|e0];
      cbn [fst snd]; [|by split; [left|]].
    destruct (if truthy (RecurrentContainer.stateful self)
              then RecurrentContainer.get_states self
              else RecurrentContainer.get_initial_states self x) as [init|e1];
      cbn [fst snd]; [|by split; [left|]].
    destruct (index shape 1) as [len|e2]; cbn [fst snd]; [|by split; [left|]].
    destruct (K_rnn _ _ _ _ _ _ _) as [[[last outs] finals]|e3];
      cbn [fst snd]; [|by split; [left|]].
    destruct (truthy (RecurrentContainer.stateful self)) eqn:Hst;
      cbn [fst snd]; [|by split; [left|]].
    split; [|done]. right.
    destruct (record_updates_frame finals 0 (RecurrentContainer.set_updates [] self))
      as [H|[ups H]].
    - exists []. destruct (RecurrentContainer.record_updates finals 0 _) as [[u|e] s'];
        simpl in *; by rewrite H.
    - exists ups. destruct (RecurrentContainer.record_updates finals 0 _) as [[u|e] s'];
        simpl in *; by rewrite H. }
  destruct Hcases as [Hcases Hnot]. split; [exact Hcases|].
  split; [|split; [|exact Hnot]];
    destruct Hcases as [->|[ups ->]]; reflexivity.
Qed.

Lemma X14_call_changes_updates_only_witness :
  (RecurrentContainer.call one_step_rnn x0 VNone
     (container_of false [Cell two_arg_method_cell])).2
  = container_of false [Cell two_arg_method_cell].
Proof.
  apply (X14_call_changes_updates_only one_step_rnn
           (container_of false [Cell two_arg_method_cell]) x0 VNone).
  reflexivity.
Defined.

Lemma record_updates_overflow sts : ∀ i s own ups,
  RecurrentContainer.states s = Some own →
  RecurrentContainer.updates s = Some ups →
  i ≤ length own →
  length own < i + length sts →
  RecurrentContainer.record_updates sts i s
  = (Raise IndexError,
     RecurrentContainer.set_updates (ups ++ zip (drop i own) sts) s).
Proof.
  induction sts as [|st sts IH]; intros i s own ups Hown Hups Hi Hlen.
  - simpl in Hlen. lia.
  - cbn [RecurrentContainer.record_updates].
    unfold mthen, mget, mlift, mset, RecurrentContainer.get_updates,
      RecurrentContainer.get_states, index.
    rewrite Hups, Hown. cbn [fst snd].
    destruct (own !! i) as [var|] eqn:Hvar.
    + apply lookup_lt_Some in Hvar as Hlt.
      rewrite (IH (S i) _ own (ups ++ [(var, st)])); [|done|done|lia|simpl in *; lia].
      rewrite (drop_S own var i Hvar). rewrite <- app_assoc. reflexivity.
    + apply lookup_ge_None in Hvar. rewrite drop_ge by done.
      simpl. rewrite app_nil_r. f_equal. destruct s; simpl in *. by subst.
Qed.

(** X15: the errors of [call].  Without an input spec (no layer was ever
    added) it raises TypeError; in stateful mode without the attribute
    [states] it raises AttributeError; in both cases the container is
    untouched and the scan is not run.  When the scan returns more final
    states than there are persistent variables, [call] raises IndexError
    after it has set [updates] to the pairs of the positions it reached. *)
Theorem X15_call_errors
  (K_rnn : (Value → list Value → result (Value * list Value)) →
           Value → list Value → Value → Value → Value → Value →
           result (Value * Value * list Value))
  (self : RecurrentContainer.t) (x mask : Value) :
  (RecurrentContainer.input_spec self = None →
     ∃ msg, RecurrentContainer.call K_rnn x mask self = (Raise (TypeError msg), self))
  ∧ (is_Some (RecurrentContainer.input_spec self) →
     truthy (RecurrentContainer.stateful self) = true →
     RecurrentContainer.states self = None →
     RecurrentContainer.call K_rnn x mask self
     = (Raise (AttributeError "states"), self))
  ∧ (∀ shape len own last outs finals,
       RecurrentContainer.input_spec self = Some shape →
       shape !! 1 = Some len →
       truthy (RecurrentContainer.stateful self) = true →
       RecurrentContainer.states self = Some own →
       K_rnn (RecurrentContainer.step self) x own (RecurrentContainer.go_backwards self)
         mask (RecurrentContainer.unroll self) len = Ok (last, outs, finals) →
       length own < length finals →
       RecurrentContainer.call K_rnn x mask self
       = (Raise IndexError, RecurrentContainer.set_updates (zip own finals) self)).
Proof.
  split; [|split].
  - intros Hspec.
    unfold RecurrentContainer.call, mthen, mget, mlift, RecurrentContainer.get_input_shape.
    rewrite Hspec. eauto.
  - intros [shape Hspec] Hst Hnone.
    unfold RecurrentContainer.call, mthen, mget, mlift,
      RecurrentContainer.get_input_shape, RecurrentContainer.get_states.
    by rewrite Hspec, Hst, Hnone.
  - intros shape len own last outs finals Hspec Hlen Hst Hown Hscan Hmore.
    unfold RecurrentContainer.call, mthen, mget, mlift, mset, mreturn,
      RecurrentContainer.get_input_shape, RecurrentContainer.get_states, index.
    rewrite Hspec, Hst, Hown. cbn [fst snd]. rewrite Hlen, Hscan. cbn [fst snd].
    rewrite (record_updates_overflow finals 0 _ own []); [done|done|done|lia|simpl; lia].
Qed.

Lemma X15_call_errors_witness :
  RecurrentContainer.call overfull_rnn x0 VNone literal_container_popped
  = (Raise IndexError,
     RecurrentContainer.set_updates
       [(K_variable (VNumpy "array" [VList [VInt 1]]),
         K_variable (VNumpy "array" [VList [VInt 1]]))]
       literal_container_popped).
Proof.
  pose proof (X15_call_errors overfull_rnn literal_container_popped x0 VNone)
    as (_ & _ & H).
  apply (H [VNone; VNone; VInt 1] VNone literal_buffers
           (VTensor "last" []) (VTensor "outputs" [])
           (literal_buffers ++ [VTensor "extra" []]));
    [reflexivity|reflexivity|reflexivity|reflexivity|reflexivity|simpl; lia].
Defined.

(** ** get_config, from_config *)

(** X16: in the dictionary [get_config] returns, the five flags and the
    serialized layer list are the container's own whatever the base class
    puts under the same keys (of two items with one key the later one
    stays), and every other key of the base configuration is passed on
    unchanged. *)
Theorem X16_get_config_own_entries_win
  (Layer_get_config : RecurrentContainer.t → gmap string Value)
  (Sequential_get_config : list SubUnit → Value)
  (self : RecurrentContainer.t) (k : string) :
  k ∉ RecurrentContainer.attribs →
  k ≠ "model" →
  RecurrentContainer.get_config Layer_get_config Sequential_get_config self !! k
  = Layer_get_config self !! k
  ∧ RecurrentContainer.get_config Layer_get_config Sequential_get_config self
      !! "model" = Some (Sequential_get_config (RecurrentContainer.model self))
  ∧ RecurrentContainer.get_config Layer_get_config Sequential_get_config self
      !! "return_sequences" = Some (RecurrentContainer.return_sequences self)
  ∧ RecurrentContainer.get_config Layer_get_config Sequential_get_config self
      !! "go_backwards" = Some (RecurrentContainer.go_backwards self)
  ∧ RecurrentContainer.get_config Layer_get_config Sequential_get_config self
      !! "stateful" = Some (RecurrentContainer.stateful self)
  ∧ RecurrentContainer.get_config Layer_get_config Sequential_get_config self
      !! "input_length" = Some (RecurrentContainer.input_length self)
  ∧ RecurrentContainer.get_config Layer_get_config Sequential_get_config self
      !! "unroll" = Some (RecurrentContainer.unroll self).
Proof.
  intros Hk Hmodel. rewrite get_config_union.
  destruct (own_config_flags Sequential_get_config self)
    as (Hm & Hrs & Hgb & Hst & Hil & Hun & _).
  split.
  - apply lookup_union_r.
    destruct (own_config Sequential_get_config self !! k) as [v|] eqn:Hown; [|done].
    apply own_config_keys in Hown as [->|Hin]; done.
  - rewrite !lookup_union_l' by (by eexists). done.
Qed.

Lemma X16_get_config_own_entries_win_witness :
  RecurrentContainer.get_config keras_base_config count_layers
    (container_of true [Plain identity_layer]) !! "name"
  = Some (VStr "recurrentcontainer_1")
  ∧ RecurrentContainer.get_config keras_base_config count_layers
      (container_of true [Plain identity_layer]) !! "stateful"
    = Some (VBool true).
Proof.
  pose proof (X16_get_config_own_entries_win keras_base_config count_layers
                (container_of true [Plain identity_layer]) "name") as H.
  destruct H as (Hname & _ & _ & _ & Hst & _).
  - unfold RecurrentContainer.attribs. intros Hin.
    repeat (apply elem_of_cons in Hin as [Hin|Hin]; [discriminate Hin|]).
    by apply elem_of_nil in Hin.
  - discriminate.
  - split; [exact Hname|exact Hst].
Defined.

(** X17: when every key of the base configuration is a parameter of
    [__init__] and the deserialization of Sequential rebuilds a layer list
    from what its serialization wrote, [from_config] applied to the result
    of [get_config] returns a container with the five flags of the
    original and the rebuilt layer list. *)
Theorem X17_config_round_trip
  (Layer_get_config : RecurrentContainer.t → gmap string Value)
  (Sequential_get_config : list SubUnit → Value)
  (Sequential_from_config : Value → result (list SubUnit))
  (self : RecurrentContainer.t) (layers : list SubUnit) :
  (∀ k, is_Some (Layer_get_config self !! k) → k ∈ RecurrentContainer.init_params) →
  Sequential_from_config (Sequential_get_config (RecurrentContainer.model self))
  = Ok layers →
  ∃ rc,
    RecurrentContainer.from_config Sequential_from_config
      (RecurrentContainer.get_config Layer_get_config Sequential_get_config self)
    = Ok rc
    ∧ RecurrentContainer.return_sequences rc = RecurrentContainer.return_sequences self
    ∧ RecurrentContainer.go_backwards rc = RecurrentContainer.go_backwards self
    ∧ RecurrentContainer.stateful rc = RecurrentContainer.stateful self
    ∧ RecurrentContainer.input_length rc = RecurrentContainer.input_length self
    ∧ RecurrentContainer.unroll rc = RecurrentContainer.unroll self
    ∧ RecurrentContainer.model rc = layers.
Proof.
  intros Hbase Hlayers. eexists. split.
  - by apply config_round_trip.
  - done.
Qed.

Lemma X17_config_round_trip_witness :
  ∃ rc,
    RecurrentContainer.from_config rebuild_layers
      (RecurrentContainer.get_config empty_base_config count_layers
         (container_of true [Plain identity_layer]))
    = Ok rc
    ∧ RecurrentContainer.return_sequences rc = VBool false
    ∧ RecurrentContainer.go_backwards rc = VBool false
    ∧ RecurrentContainer.stateful rc = VBool true
    ∧ RecurrentContainer.input_length rc = VNone
    ∧ RecurrentContainer.unroll rc = VBool false
    ∧ RecurrentContainer.model rc = [Plain identity_layer].
Proof.
  apply (X17_config_round_trip empty_base_config count_layers rebuild_layers
           (container_of true [Plain identity_layer]) [Plain identity_layer]).
  - intros k [v Hv]. unfold empty_base_config in Hv.
    rewrite lookup_empty in Hv. discriminate Hv.
  - reflexivity.
Defined.

Lemma from_config_ok_inv Sequential_from_config config rc :
  RecurrentContainer.from_config Sequential_from_config config = Ok rc →
  RecurrentContainer.input_spec rc = None
  ∧ RecurrentContainer.states rc = None
  ∧ RecurrentContainer.updates rc = None.
Proof.
  unfold RecurrentContainer.from_config.
  destruct (config !! "model") as [m|]; simpl; [|done].
  unfold RecurrentContainer.construct.
  destruct (filter _ _) as [|[k v] l]; simpl; [|done].
  destruct (Sequential_from_config m) as [layers|e]; simpl; [|done].
  by intros [= <-].
Qed.

(** X18: [from_config] raises KeyError on a dictionary without the key
    [model]; and a container it returns has its layers but no input spec,
    no [states] and no [updates], because only [add] sets the input spec:
    on it [reset_states], [output_shape] and [call] raise TypeError, and
    out of stateful mode adding further layers to a rebuilt non-empty
    pipeline does not set the input spec either. *)
Theorem X18_from_config_leaves_no_input_spec
  (Sequential_from_config : Value → result (list SubUnit))
  (config : gmap string Value) :
  (config !! "model" = None →
     RecurrentContainer.from_config Sequential_from_config config
     = Raise (KeyError "model"))
  ∧ ∀ rc, RecurrentContainer.from_config Sequential_from_config config = Ok rc →
      RecurrentContainer.input_spec rc = None
      ∧ RecurrentContainer.states rc = None
      ∧ (∃ msg, RecurrentContainer.reset_states rc = (Raise (TypeError msg), rc))
      ∧ (∃ msg, RecurrentContainer.output_shape rc = Raise (TypeError msg))
      ∧ (∀ K_rnn x mask,
           ∃ msg, RecurrentContainer.call K_rnn x mask rc = (Raise (TypeError msg), rc))
      ∧ (RecurrentContainer.model rc ≠ [] →
         truthy (RecurrentContainer.stateful rc) = false →
         ∀ layer, RecurrentContainer.input_spec (RecurrentContainer.add layer rc).2 = None).
Proof.
  split.
  - intros Hnone. unfold RecurrentContainer.from_config. by rewrite Hnone.
  - intros rc Hok.
    destruct (from_config_ok_inv _ _ _ Hok) as (Hspec & Hstates & _).
    split; [done|]. split; [done|]. split; [|split; [|split]].
    + unfold RecurrentContainer.reset_states, mthen, mget, mlift,
        RecurrentContainer.get_input_shape. rewrite Hspec. eauto.
    + unfold RecurrentContainer.output_shape, RecurrentContainer.get_input_shape.
      rewrite Hspec. simpl. eauto.
    + intros K_rnn x mask.
      unfold RecurrentContainer.call, mthen, mget, mlift,
        RecurrentContainer.get_input_shape. rewrite Hspec. eauto.
    + intros Hne Hst layer.
      by rewrite (add_further_layer layer rc Hst Hne).
Qed.

Lemma X18_from_config_leaves_no_input_spec_witness :
  RecurrentContainer.from_config rebuild_layers ∅ = Raise (KeyError "model")
  ∧ ∃ msg,
      RecurrentContainer.reset_states
        (RecurrentContainer.set_model [Plain identity_layer]
           (RecurrentContainer.__init__ VNone (VBool false) (VBool false) (VBool true)
              VNone (VBool false)))
      = (Raise (TypeError msg),
         RecurrentContainer.set_model [Plain identity_layer]
           (RecurrentContainer.__init__ VNone (VBool false) (VBool false) (VBool true)
              VNone (VBool false))).
Proof.
  split.
  - apply (X18_from_config_leaves_no_input_spec rebuild_layers ∅). reflexivity.
  - pose proof (X18_from_config_leaves_no_input_spec rebuild_layers
                  (RecurrentContainer.get_config empty_base_config count_layers
                     (container_of true [Plain identity_layer]))) as [_ H].
    destruct (H (RecurrentContainer.set_model [Plain identity_layer]
                   (RecurrentContainer.__init__ VNone (VBool false) (VBool false)
                      (VBool true) VNone (VBool false))))
      as (_ & _ & Hreset & _).
    + vm_compute. reflexivity.
    + exact Hreset.
Defined.

(** ** RNNCell.get_output_shape_for *)

(** X19: a Cell that declares [output_dim] maps a non-empty input shape to
    a shape of the same rank, with the last dimension replaced by
    [output_dim] and all others kept, and applying the shape function to
    its own result changes nothing; on the empty shape it returns the
    one-dimensional shape [(output_dim,)]. *)
Theorem X19_cell_output_shape (c : RNNCell.t) (d : Value) (input_shape : list Value) :
  RNNCell.output_dim c = Some d →
  let out := RNNCell.get_output_shape_for c input_shape in
  last out = Some d
  ∧ length out = max 1 (length input_shape)
  ∧ (∀ i, S i < length input_shape → out !! i = input_shape !! i)
  ∧ RNNCell.get_output_shape_for c out = out.
Proof.
  intros Hd out. unfold out, RNNCell.get_output_shape_for. rewrite Hd.
  split; [by rewrite last_snoc|]. split; [|split].
  - rewrite length_app, length_take. simpl. lia.
  - intros i Hi. rewrite lookup_app_l by (rewrite length_take; lia).
    by rewrite lookup_take_lt by lia.
  - rewrite length_app, length_take. simpl.
    replace (min (length input_shape - 1) (length input_shape) + 1 - 1)
      with (length (take (length input_shape - 1) input_shape))
      by (rewrite length_take; lia).
    by rewrite take_app_length.
Qed.

Lemma X19_cell_output_shape_witness :
  last (RNNCell.get_output_shape_for
          (RNNCell.Build_t [] PlainFunction ["x"; "states"] sum_body [] [] [] None
             (Some (VInt 8)) None)
          [VNone; VInt 3])
  = Some (VInt 8).
Proof.
  apply (X19_cell_output_shape
           (RNNCell.Build_t [] PlainFunction ["x"; "states"] sum_body [] [] [] None
              (Some (VInt 8)) None)
           (VInt 8) [VNone; VInt 3]).
  reflexivity.
Defined.

(** ** get_initial_states: the running input *)

(** X20: [get_initial_states] resolves the states of a Cell against the
    running input, not against the raw first timestep: for a Cell that
    comes after stateless layers, a callable state specification is called
    with the first timestep after these layers were applied to it in
    order, and the Cell is then stepped once on that input and the states
    so resolved. *)
Theorem X20_initial_states_use_running_input (self : RecurrentContainer.t)
  (x b n : Value) (rest : list Value) (ls : list Layer) (c : RNNCell.t)
  (f : Value → Value) (y : Value) (new : list Value) :
  RecurrentContainer.input_spec self = Some (b :: n :: rest) →
  RecurrentContainer.model self = (Plain <$> ls) ++ [Cell c] →
  RNNCell.states c = [SCallable f] →
  let input := foldl (λ y l, layer_call l y) (RecurrentContainer._get_first_timestep x) ls in
  RNNCell._step c input (as_list (f input)) = Ok (y, new) →
  RecurrentContainer.get_initial_states self x = Ok (as_list (f input)).
Proof.
  intros Hspec Hmodel Hstates input Hstep.
  unfold RecurrentContainer.get_initial_states.
  rewrite (resolved_sizes_spec self x b n rest Hspec), Hmodel. simpl.
  generalize (resolved_size b x 0) as bs, (resolved_size n x 1) as il. intros bs il.
  subst input. revert Hstep. clear Hmodel.
  generalize (RecurrentContainer._get_first_timestep x) as x1.
  induction ls as [|l ls IH]; intros x1 Hstep; simpl in *.
  - assert (Hlis : RecurrentContainer.layer_initial_states c x1 bs il = as_list (f x1)).
    { unfold RecurrentContainer.layer_initial_states. rewrite Hstates. simpl.
      by destruct (f x1). }
    rewrite Hlis, Hstep. reflexivity.
  - by apply IH.
Qed.

Lemma X20_initial_states_use_running_input_witness :
  RecurrentContainer.get_initial_states
    (container_of false
       [Plain {| layer_call := λ v, VTensor "dense" [v];
                 layer_input_shape := Some [VNone; VInt 1];
                 layer_get_output_shape_for := λ s, s |};
        Cell callable_cell]) x0
  = Ok [VTensor "zeros_like" [VTensor "dense" [RecurrentContainer._get_first_timestep x0]]].
Proof.
  apply (X20_initial_states_use_running_input
           (container_of false
              [Plain {| layer_call := λ v, VTensor "dense" [v];
                        layer_input_shape := Some [VNone; VInt 1];
                        layer_get_output_shape_for := λ s, s |};
               Cell callable_cell])
           x0 VNone VNone [VInt 1]
           [{| layer_call := λ v, VTensor "dense" [v];
               layer_input_shape := Some [VNone; VInt 1];
               layer_get_output_shape_for := λ s, s |}]
           callable_cell (λ v, VTensor "zeros_like" [v])
           (VTensor "add" [VTensor "dense" [RecurrentContainer._get_first_timestep x0];
                           VTensor "zeros_like"
                             [VTensor "dense" [RecurrentContainer._get_first_timestep x0]]])
           [VTensor "add" [VTensor "dense" [RecurrentContainer._get_first_timestep x0];
                           VTensor "zeros_like"
                             [VTensor "dense" [RecurrentContainer._get_first_timestep x0]]]]);
    reflexivity.
Defined.
